(** * PDF page utilities: reorder, split, merge

    A shallow embedding of the three scripts under
    [PL/Python/CG/Productivity/Documents/PDF] (reorder.py, split.py,
    merge.py) and the properties their specification states about them.

    Python integers are [Z]; Python lists are [list]; a raised exception
    is the left summand of a sum; the file system the scripts read and
    write is a finite map from places to nodes, together with the place
    each path leads to.  The progress lines that split.py and merge.py
    print to standard output are left out. *)

From Stdlib Require Import ZArith List Ascii String Lia.
From stdpp Require Import base option list list_numbers strings gmap.

Local Open Scope Z_scope.

(** ** Exceptions and results *)

(** The exceptions the scripts and the library calls they make can raise.
    [PdfReadError] stands for the error of the PDF library in use on a file
    that is not a PDF (PyPDF3's [PdfReadError], pikepdf's [PdfError]). *)
Inductive exn : Type :=
  | AssertionError
  | ValueError
  | TypeError
  | KeyError
  | IndexError
  | FileNotFoundError
  | IsADirectoryError
  | NotADirectoryError
  | UnicodeDecodeError
  | PdfReadError.

Definition result (A : Type) : Type := exn + A.

Definition ret {A} (a : A) : result A := inr a.
Definition raise {A} (e : exn) : result A := inl e.

Definition bind {A B} (r : result A) (k : A -> result B) : result B :=
  match r with
  | inl e => inl e
  | inr a => k a
  end.

Notation "'let!' x ':=' r 'in' k" := (bind r (fun x => k))
  (at level 10, x name, r at level 100, k at level 200).

(** [assert b] *)
Definition py_assert (b : bool) : result unit :=
  if b then ret tt else raise AssertionError.

(** A [for] loop that collects one value per element and stops at the
    first exception. *)
Fixpoint for_each {A B} (f : A -> result B) (l : list A) : result (list B) :=
  match l with
  | [] => ret []
  | x :: l' => let! y := f x in let! ys := for_each f l' in ret (y :: ys)
  end.

(** ** Python sequence primitives *)

Module Py.

(** [range(a, b)]: the integers [a, a+1, ..., b-1]; empty when [b <= a]. *)
Definition range (a b : Z) : list Z := seqZ a (b - a).

(** A slice bound clamped to the sequence, as [slice.indices] does for
    step 1: negative bounds count from the end. *)
Definition clamp (len : nat) (i : Z) : nat :=
  if i <? 0 then Z.to_nat (Z.max 0 (Z.of_nat len + i))
  else Z.to_nat (Z.min i (Z.of_nat len)).

(** [l[:i]] *)
Definition slice_to {A} (i : Z) (l : list A) : list A :=
  take (clamp (length l) i) l.

(** [l[i:]] *)
Definition slice_from {A} (i : Z) (l : list A) : list A :=
  drop (clamp (length l) i) l.

(** [l[i]]: negative indices count from the end; out of range raises. *)
Definition index {A} (l : list A) (i : Z) : result A :=
  let j := if i <? 0 then Z.of_nat (length l) + i else i in
  if j <? 0 then raise IndexError
  else match l !! Z.to_nat j with
       | Some x => ret x
       | None => raise IndexError
       end.

(** The positions [wait, wait+step, wait+2*step, ...] of [l] are
    overwritten by the elements of [vals] in turn; [None] when the number
    of such positions is not the length of [vals].  [step] is at least 1. *)
Fixpoint assign_stride {A} (wait step : nat) (l vals : list A)
  : option (list A) :=
  match l with
  | [] => match vals with
          | [] => Some []
          | _ :: _ => None
          end
  | x :: l' =>
      match wait with
      | O => match vals with
             | [] => None
             | v :: vals' =>
                 cons v <$> assign_stride (Nat.pred step) step l' vals'
             end
      | S w => cons x <$> assign_stride w step l' vals
      end
  end.

(** [l[start::step] = vals]: extended slice assignment.  Python refuses
    with [ValueError] when the sizes differ and leaves [l] as it was. *)
Definition set_ext_slice {A} (start step : nat) (l vals : list A)
  : result (list A) :=
  match assign_stride start step l vals with
  | Some l' => ret l'
  | None => raise ValueError
  end.

End Py.

(** ** reorder.py: the page reorder transform *)

(** [_make_sequence(n)] *)
Definition _make_sequence (n : Z) : result (list Z) :=
  let! _ := py_assert (n mod 2 =? 0) in
  let pages := Py.range 0 n in
  let half := Z.of_nat (length pages) / 2 in
  let left := Py.slice_to half pages in
  let right := Py.slice_from half pages in
  let right := reverse right in
  let correct := Py.range 0 n in
  let! correct := Py.set_ext_slice 0 2 correct left in
  let! correct := Py.set_ext_slice 1 2 correct right in
  ret correct.

(** ** Strings: [int(...)] and [os.path.join] *)

Module PyStr.

(** The white space [int] skips around an ASCII literal: the space and the
    characters 9 to 13. *)
Definition is_space (c : ascii) : bool :=
  let n := N_of_ascii c in
  (N.eqb n 32 || (N.leb 9 n && N.leb n 13))%bool.

Definition digit_of (c : ascii) : option Z :=
  let n := Z.of_N (N_of_ascii c) in
  if (48 <=? n) && (n <=? 57) then Some (n - 48) else None.

Fixpoint lstrip (s : list ascii) : list ascii :=
  match s with
  | [] => []
  | c :: s' => if is_space c then lstrip s' else s
  end.

Definition strip (s : list ascii) : list ascii :=
  rev (lstrip (rev (lstrip s))).

(** Decimal digits, a single underscore allowed between two digits. *)
Fixpoint digits (acc : Z) (after_digit : bool) (s : list ascii) : option Z :=
  match s with
  | [] => if after_digit then Some acc else None
  | c :: s' =>
      if Ascii.eqb c "_"
      then (if after_digit then digits acc false s' else None)
      else match digit_of c with
           | Some d => digits (10 * acc + d) true s'
           | None => None
           end
  end.

(** [int(s)] for a string [s] of ASCII characters, not longer than the
    number of digits [int] converts (4300): surrounding white space is
    dropped, one sign is allowed, anything else raises [ValueError]. *)
Definition int (s : string) : result Z :=
  let cs := strip (list_ascii_of_string s) in
  let '(sign, ds) :=
    match cs with
    | "-"%char :: r => (-1, r)
    | "+"%char :: r => (1, r)
    | _ => (1, cs)
    end in
  match digits 0 false ds with
  | Some v => ret (sign * v)
  | None => raise ValueError
  end.

Definition startswith_sep (p : string) : bool :=
  match p with
  | String "/" _ => true
  | _ => false
  end.

Fixpoint endswith_sep (p : string) : bool :=
  match p with
  | EmptyString => false
  | String c EmptyString => Ascii.eqb c "/"
  | String _ p' => endswith_sep p'
  end.

(** [os.path.join(a, p)] (posixpath). *)
Definition join (a p : string) : string :=
  if startswith_sep p then p
  else if (String.eqb a "" || endswith_sep a)%bool then String.append a p
  else String.append a (String.append "/" p).

End PyStr.

(** ** Rows of a CSV file *)

(** A row as [csv.DictReader] yields it: column name to field, [None] for
    a field that the line is short of. *)
Abbreviation row := (gmap string (option string)).

(** [row[key]] *)
Definition dict_get (r : row) (key : string) : result (option string) :=
  match r !! key with
  | Some v => ret v
  | None => raise KeyError
  end.

(** [int(x)] for a field of a row. *)
Definition py_int (x : option string) : result Z :=
  match x with
  | Some s => PyStr.int s
  | None => raise TypeError
  end.

(** [os.path.join(a, p)] where [p] may be [None]. *)
Definition os_path_join (a : string) (p : option string) : result string :=
  match p with
  | Some p => ret (PyStr.join a p)
  | None => raise TypeError
  end.

(** The dictionary [DictReader] makes of one line: the columns zipped with
    the fields, a later column of the same name replacing an earlier one,
    and [None] under the columns the line is short of.  Fields beyond the
    last column go under the key [None], which no string equals. *)
Definition make_row (fieldnames fields : list string) : row :=
  foldl (fun d kv => <[fst kv := snd kv]> d) ∅
    (zip fieldnames
       ((Some <$> fields)
        ++ replicate (length fieldnames - length fields)%nat None)).

Definition nonblank (record : list string) : bool :=
  match record with
  | [] => false
  | _ :: _ => true
  end.

(** The rows [DictReader] yields for the records [csv.reader] reads from a
    file: the first record names the columns, blank records after it are
    skipped. *)
Definition dict_reader (records : list (list string)) : list row :=
  match records with
  | [] => []
  | fieldnames :: rest => make_row fieldnames <$> List.filter nonblank rest
  end.

(** ** The file system and the PDF library *)

Section FileSystem.

(** Page objects are opaque: the scripts only move them around. *)
Context {Page : Type}.

(** What a place can hold: a PDF document with its pages in order, a text
    file (given by the records [csv.reader] reads from it), or a
    directory. *)
Inductive node : Type :=
  | PdfFile (pages : list Page)
  | CsvFile (records : list (list string))
  | Directory.

(** The file system a run works on.  [locate p] is the place the path [p]
    leads to, whether something is there or not: two paths with the same
    place name the same file; [None] when [p] leads nowhere (it is empty,
    or a directory on the way is missing or is a file, ...).  The scripts
    create and replace files but no directories, so [locate] does not
    change during a run.  [files] is what each place holds.
    [open_rb_error files p] and [open_wb_error files p] are the exceptions
    [open(p, 'rb')] and [open(p, 'wb')] raise for a path that leads
    nowhere, given what the places hold.  Every file can be read and
    written by the process; links to files are paths with the same
    place. *)
Record filesystem : Type := mkFilesystem {
  locate : string -> option string;
  open_rb_error : gmap string node -> string -> exn;
  open_wb_error : gmap string node -> string -> exn;
  files : gmap string node
}.

(** What a path names: [fs !! p]. *)
Definition path_lookup (p : string) (fs : filesystem) : option node :=
  match locate fs p with
  | Some place => files fs !! place
  | None => None
  end.

#[global] Instance filesystem_lookup : Lookup string node filesystem :=
  path_lookup.

(** The file system with [nd] put at [place]. *)
Definition store (place : string) (nd : node) (fs : filesystem) : filesystem :=
  {| locate := locate fs;
     open_rb_error := open_rb_error fs;
     open_wb_error := open_wb_error fs;
     files := <[place := nd]> (files fs) |}.

(** [os.path.exists], [os.path.isfile], [os.path.isdir] *)
Definition path_exists (fs : filesystem) (p : string) : bool :=
  match fs !! p with
  | Some _ => true
  | None => false
  end.

Definition isfile (fs : filesystem) (p : string) : bool :=
  match fs !! p with
  | Some (PdfFile _) | Some (CsvFile _) => true
  | _ => false
  end.

Definition isdir (fs : filesystem) (p : string) : bool :=
  match fs !! p with
  | Some Directory => true
  | _ => false
  end.

(** Computations that read and write the file system and may raise; what
    was written before an exception stays written. *)
Definition io (A : Type) : Type := filesystem -> result A * filesystem.

Definition io_ret {A} (a : A) : io A := fun fs => (ret a, fs).

Definition io_bind {A B} (m : io A) (k : A -> io B) : io B :=
  fun fs =>
    match m fs with
    | (inl e, fs') => (inl e, fs')
    | (inr a, fs') => k a fs'
    end.

Definition lift {A} (r : result A) : io A := fun fs => (r, fs).

Definition os_path_exists (p : string) : io bool :=
  fun fs => (ret (path_exists fs p), fs).

(** Opening [p] for reading and handing it to the PDF reader
    ([PdfFileReader(open(p, 'rb'))], [pikepdf.open(p)]): the pages. *)
Definition read_pdf (p : string) : io (list Page) :=
  fun fs =>
    (match locate fs p with
     | None => raise (open_rb_error fs (files fs) p)
     | Some place =>
         match files fs !! place with
         | None => raise FileNotFoundError
         | Some Directory => raise IsADirectoryError
         | Some (CsvFile _) => raise PdfReadError
         | Some (PdfFile pages) => ret pages
         end
     end, fs).

(** [open(p, newline='')] read through [csv.reader]: the records. *)
Definition read_csv (p : string) : io (list (list string)) :=
  fun fs =>
    (match locate fs p with
     | None => raise (open_rb_error fs (files fs) p)
     | Some place =>
         match files fs !! place with
         | None => raise FileNotFoundError
         | Some Directory => raise IsADirectoryError
         | Some (PdfFile _) => raise UnicodeDecodeError
         | Some (CsvFile records) => ret records
         end
     end, fs).

(** Opening [p] for writing and writing a document to it
    ([writer.write(open(p, "wb"))], [pdf.save(p)]): creates or replaces
    the file at the place [p] leads to. *)
Definition write_pdf (p : string) (pages : list Page) : io unit :=
  fun fs =>
    match locate fs p with
    | None => (raise (open_wb_error fs (files fs) p), fs)
    | Some place =>
        match files fs !! place with
        | Some Directory => (raise IsADirectoryError, fs)
        | _ => (ret tt, store place (PdfFile pages) fs)
        end
    end.

End FileSystem.

Arguments node : clear implicits.
Arguments filesystem : clear implicits.
Arguments io : clear implicits.

Notation "'do!' x ':=' m 'in' k" := (io_bind m (fun x => k))
  (at level 10, x name, m at level 100, k at level 200).

(** How a script run ends. *)
Inductive outcome (Page : Type) : Type :=
  | Completed (fs : filesystem Page)
  | SystemExit (code : Z) (stderr : string) (fs : filesystem Page)
  | Uncaught (e : exn) (fs : filesystem Page).

Arguments Completed {Page} fs.
Arguments SystemExit {Page} code stderr fs.
Arguments Uncaught {Page} e fs.

(** A script body that runs to its end or dies of an exception. *)
Definition run {Page} (m : io Page unit) (fs : filesystem Page) : outcome Page :=
  match m fs with
  | (inr _, fs') => Completed fs'
  | (inl e, fs') => Uncaught e fs'
  end.

(** A [for] loop over [l] whose body acts on the file system. *)
Fixpoint io_for {Page A} (body : A -> io Page unit) (l : list A) : io Page unit :=
  match l with
  | [] => io_ret tt
  | x :: l' => do! _ := body x in io_for body l'
  end.

(** ** reorder.py: the script *)

Section Reorder.

Context {Page : Type}.

(** The loop [for page_number in order: output.addPage(input_pdf.getPage(page_number))];
    [getPage] indexes the reader's list of pages. *)
Definition select_pages (input_pdf : list Page) (order : list Z)
  : result (list Page) :=
  for_each (Py.index input_pdf) order.

(** [reorder(input_filename, output_filename)] *)
Definition reorder (input_filename output_filename : string) : io Page unit :=
  do! input_exists := os_path_exists input_filename in
  do! _ := lift (py_assert input_exists) in
  do! output_exists := os_path_exists output_filename in
  do! _ := lift (py_assert (negb output_exists)) in
  do! input_pdf := read_pdf input_filename in
  let pages := Z.of_nat (length input_pdf) in
  do! order := lift (_make_sequence pages) in
  do! output := lift (select_pages input_pdf order) in
  write_pdf output_filename output.

(** The [__main__] block of reorder.py, on the parsed arguments. *)
Definition reorder_main (filename output : string) (fs : filesystem Page)
  : outcome Page :=
  if negb (path_exists fs filename)
  then SystemExit (-1)
         (String.append "Input file " (String.append filename " does not exist")) fs
  else if (path_exists fs output && negb (String.eqb filename output))%bool
  then SystemExit (-1)
         (String.append "Output file " (String.append output " already exists")) fs
  else run (reorder filename output) fs.

End Reorder.

(** ** split.py *)

(** A chapter as the named tuple holds it; [name] is [None] when the row
    it was read from was short of that field. *)
Record Chapter : Type := mkChapter {
  name : option string;
  start : Z;
  stop : Z
}.

(** One iteration of the loop of [_parse_splits_file]. *)
Definition parse_row (r : row) : result Chapter :=
  let! name := dict_get r "name" in
  let! start_field := dict_get r "start" in
  let! start := py_int start_field in
  let! stop_field := dict_get r "end" in
  let! stop := py_int stop_field in
  ret (mkChapter name start stop).

Section Split.

Context {Page : Type}.

(** [_parse_splits_file(filename)] *)
Definition _parse_splits_file (filename : string) : io Page (list Chapter) :=
  do! file_exists := os_path_exists filename in
  do! _ := lift (py_assert file_exists) in
  do! records := read_csv filename in
  let reader := dict_reader records in
  lift (for_each parse_row reader).

(** The body of the loop of [split], for one chapter.  The reader has the
    pages in hand before the output is opened; that the output is then
    written as read holds when it is not the file being read. *)
Definition split_chapter (filename directory : string) (chapter : Chapter)
  : io Page unit :=
  do! input_pdf := read_pdf filename in
  do! output :=
    lift (for_each (Py.index input_pdf)
            (Py.range (start chapter - 1) (stop chapter))) in
  do! output_filename := lift (os_path_join directory (name chapter)) in
  write_pdf output_filename output.

(** [split(filename, chapters, directory)] *)
Definition split (filename : string) (chapters : list Chapter)
    (directory : string) : io Page unit :=
  do! file_exists := os_path_exists filename in
  do! _ := lift (py_assert file_exists) in
  io_for (split_chapter filename directory) chapters.

End Split.

(** ** merge.py *)

(** What can stand to the right of [result + ...] in [_expand_files]. *)
Inductive operand : Type :=
  | OfList (l : list string)
  | OfStr (s : string)
  | OfGenerator (l : list string).

(** [acc + x] for a list [acc]: only a list can be appended to a list. *)
Definition list_add (acc : list string) (x : operand) : result (list string) :=
  match x with
  | OfList l => ret (acc ++ l)
  | OfStr _ | OfGenerator _ => raise TypeError
  end.

Section Expand.

Context {Page : Type}.

(** The file system at the time of the call, and what it makes the two
    pattern matchers return: [glob(pattern)], and the paths that
    [Path(directory).glob(pattern)] generates. *)
Variable fs : filesystem Page.
Variable glob : string -> list string.
Variable path_glob : string -> string -> list string.

(** One iteration of the loop of [_expand_files]. *)
Definition expand_step (acc : list string) (filename : string)
  : result (list string) :=
  let! acc :=
    if isfile fs filename then list_add acc (OfStr filename) else ret acc in
  if isdir fs filename
  then list_add acc (OfGenerator (path_glob filename "*.*"))
  else list_add acc (OfList (glob filename)).

Fixpoint expand_loop (acc : list string) (filenames : list string)
  : result (list string) :=
  match filenames with
  | [] => ret acc
  | filename :: rest =>
      let! acc := expand_step acc filename in expand_loop acc rest
  end.

(** [_expand_files(filenames)] *)
Definition _expand_files (filenames : list string) : result (list string) :=
  expand_loop [] filenames.

End Expand.

Section Merge.

Context {Page : Type}.

(** What one source adds to the merged document: [source.pages[skip_front:]]
    if [skip_front] is true ([None] and [0] are not), else [source.pages]. *)
Definition merge_pages (skip_front : option Z) (source : list Page) : list Page :=
  match skip_front with
  | Some k => if negb (k =? 0) then Py.slice_from k source else source
  | None => source
  end.

Fixpoint merge_loop (merged : list Page) (filenames : list string)
    (skip_front : option Z) : io Page (list Page) :=
  match filenames with
  | [] => io_ret merged
  | filename :: rest =>
      do! source := read_pdf filename in
      merge_loop (merged ++ merge_pages skip_front source) rest skip_front
  end.

(** [merge(output, filenames, skip_front)]; [None] is the default. *)
Definition merge (output : string) (filenames : list string)
    (skip_front : option Z) : io Page unit :=
  do! merged := merge_loop [] filenames skip_front in
  write_pdf output merged.

End Merge.

(** ** The command lines of split.py and merge.py *)

Section SplitMain.

Context {Page : Type}.

(** [Path(filename).parent.absolute()] as a string: the directory of the
    input, which depends on the working directory of the process. *)
Variable parent_absolute : string -> string.

(** The [__main__] block of split.py, on the parsed arguments. *)
Definition split_main (filename chapters : string) (fs : filesystem Page)
  : outcome Page :=
  if negb (path_exists fs filename)
  then SystemExit (-1)
         (String.append "Input file " (String.append filename " does not exist")) fs
  else if negb (path_exists fs chapters)
  then SystemExit (-1)
         (String.append "Chapter file " (String.append chapters " already exists")) fs
  else
    let _directory := parent_absolute filename in
    run (do! _chapters := _parse_splits_file chapters in
         split filename _chapters _directory) fs.

End SplitMain.

Section MergeMain.

Context {Page : Type}.

(** The two pattern matchers, as in [_expand_files], and the text that the
    f-string [{args.input}] puts for a list of strings. *)
Variable glob : string -> list string.
Variable path_glob : string -> string -> list string.
Variable format_list : list string -> string.

(** The [__main__] block of merge.py, on the parsed arguments:
    [stripfront] is [None] when the option is not given. *)
Definition merge_main (output : string) (input : list string)
    (stripfront : option Z) (fs : filesystem Page) : outcome Page :=
  if String.eqb output ""
  then SystemExit (-1) "Need to specify output file name" fs
  else if path_exists fs output
  then SystemExit (-1)
         (String.append "Output file " (String.append output " already exists")) fs
  else match input with
  | [] => SystemExit (-1) "Input list of files is empty" fs
  | _ :: _ =>
      match _expand_files fs glob path_glob input with
      | inl e => Uncaught e fs
      | inr inputs =>
          if existsb (fun filename => negb (path_exists fs filename)) inputs
          then SystemExit (-1)
                 (String.append "Input file "
                    (String.append (format_list input) " does not exist")) fs
          else match stripfront with
               | Some k =>
                   if negb (k =? 0)
                   then run (merge output inputs (Some k)) fs
                   else run (merge output inputs None) fs
               | None => run (merge output inputs None) fs
               end
      end
  end.

End MergeMain.

(** ** A file system to try the scripts on *)

(** [p.split('/')]: the names between the separators of a path. *)
Fixpoint components (p : string) : list string :=
  match p with
  | EmptyString => [EmptyString]
  | String c p' =>
      if Ascii.eqb c "/" then EmptyString :: components p'
      else match components p' with
           | name :: rest => String c name :: rest
           | [] => [String c EmptyString]
           end
  end.

(** A position in the tree of directories is the list of the names on the
    way to it from the root, the last one first; [place_name] is the place
    it stands for, written as an absolute name. *)
Definition place_name (here : list string) : string :=
  match here with
  | [] => "/"
  | _ :: _ =>
      foldr (fun name s => String.append s (String.append "/" name)) "" here
  end.

(** One name further from the directory [here]. *)
Definition enter (here : list string) (name : string) : list string :=
  if (String.eqb name "" || String.eqb name ".")%bool then here
  else if String.eqb name ".." then tail here
  else name :: here.

(** Following the names [path] from [here], for as long as what is there is
    a directory: where the walk ends, and the names it did not get to. *)
Fixpoint walk {Page} (content : gmap string (node Page))
    (here path : list string) : list string * list string :=
  match path with
  | [] => (here, [])
  | name :: rest =>
      match content !! place_name here with
      | Some Directory => walk content (enter here name) rest
      | _ => (here, path)
      end
  end.

(** Path resolution for a process that works in the directory [cwd]: from
    the root for an absolute path, from [cwd] for a relative one.  There
    are no links. *)
Definition resolve {Page} (content : gmap string (node Page))
    (cwd p : string) : list string * list string :=
  if PyStr.startswith_sep p then walk content [] (components p)
  else match walk content [] (components cwd) with
       | (here, []) => walk content here (components p)
       | stuck => stuck
       end.

Definition folder_locate {Page} (content : gmap string (node Page))
    (cwd p : string) : option string :=
  if String.eqb p "" then None
  else match resolve content cwd p with
       | (here, []) => Some (place_name here)
       | _ => None
       end.

(** What [open] raises for a path that leads nowhere: the walk stopped at
    a file, or at nothing; opening for writing with only separators left
    is refused as a directory. *)
Definition folder_open_error {Page} (writing : bool) (cwd : string)
    (content : gmap string (node Page)) (p : string) : exn :=
  if String.eqb p "" then FileNotFoundError
  else
    let '(here, rest) := resolve content cwd p in
    if (writing && forallb (String.eqb "") rest)%bool then IsADirectoryError
    else match content !! place_name here with
         | Some _ => NotADirectoryError
         | None => FileNotFoundError
         end.

(** The file system of a process that works in [cwd], a directory of the
    root given by its absolute name (such as [/home]), with [content] in
    it: what each place holds, keyed by absolute names. *)
Definition folder {Page} (cwd : string) (content : gmap string (node Page))
  : filesystem Page :=
  let all := <["/"%string := Directory]> (<[cwd := Directory]> content) in
  {| locate := folder_locate all cwd;
     open_rb_error := folder_open_error false cwd;
     open_wb_error := folder_open_error true cwd;
     files := all |}.

(** ** Vocabulary of the properties *)

(** Alternating two lists of the same length. *)
Fixpoint interleave {A} (a b : list A) : list A :=
  match a, b with
  | x :: a', y :: b' => x :: y :: interleave a' b'
  | _, _ => []
  end.

(** The front half ascending and the back half descending. *)
Definition front (m : nat) : list Z := seqZ 0 (Z.of_nat m).
Definition back (m : nat) : list Z := reverse (seqZ (Z.of_nat m) (Z.of_nat m)).

(** The sequence for [n] starts with the first front page, then the last
    back page. *)
Definition starts_front_back (n : Z) : Prop :=
  exists R : list Z,
    _make_sequence n = inr R
    /\ R !! 0%nat = Some 0
    /\ R !! 1%nat = Some (n - 1).

(** Two paths that lead to the same place. *)
Definition same_file {Page} (fs : filesystem Page) (p q : string) : Prop :=
  exists place, locate fs p = Some place /\ locate fs q = Some place.

(** A path that can be opened for writing: it leads to a place, and no
    directory is there. *)
Definition can_write {Page} (fs : filesystem Page) (p : string) : Prop :=
  exists place, locate fs p = Some place /\ files fs !! place <> Some Directory.

(** A path that can be created: it leads to a place, and nothing is
    there. *)
Definition free_path {Page} (fs : filesystem Page) (p : string) : Prop :=
  exists place, locate fs p = Some place /\ files fs !! place = None.

(** Pages [start..stop] of a document, counted from 1, both ends included,
    in the order of the document. *)
Definition chapter_pages {Page} (doc : list Page) (c : Chapter) : list Page :=
  take (Z.to_nat (stop c - start c + 1)) (drop (Z.to_nat (start c - 1)) doc).

(** The invariant of a chapter with respect to a page count. *)
Definition chapter_in_bounds (total : Z) (c : Chapter) : Prop :=
  1 <= start c /\ start c <= stop c /\ stop c <= total.

(** Where [split] writes a chapter that has a name. *)
Definition chapter_path (directory : string) (c : Chapter) : option string :=
  PyStr.join directory <$> name c.

(** A chapter [split] can write next to the input [filename]: it has a
    name, the path made of it can be opened for writing, and it is not the
    input file. *)
Definition chapter_beside {Page} (fs : filesystem Page)
    (filename directory : string) (c : Chapter) : Prop :=
  exists out,
    chapter_path directory c = Some out
    /\ can_write fs out
    /\ ~ same_file fs out filename.

(** The chapters of a list that write to the file [out] names. *)
Definition writes_to {Page} (fs : filesystem Page) (directory out : string)
    (c : Chapter) : Prop :=
  exists out', chapter_path directory c = Some out' /\ same_file fs out' out.

(** Strings on which [PyStr.int] is Python's [int]: ASCII characters only,
    and no more of them than [int] converts. *)
Definition plain (s : string) : bool :=
  (forallb (fun c => N.ltb (N_of_ascii c) 128) (list_ascii_of_string s)
   && Nat.leb (String.length s) 4300)%bool.

(** A table of plain fields. *)
Definition plain_records (records : list (list string)) : Prop :=
  Forall (Forall (fun field => plain field = true)) records.

(** What a row and the chapter parsed from it have in common: the name
    field, and the integers the start and end fields denote. *)
Definition row_chapter (r : row) (c : Chapter) : Prop :=
  r !! "name"%string = Some (name c)
  /\ (exists s, r !! "start"%string = Some (Some s) /\ PyStr.int s = inr (start c))
  /\ (exists s, r !! "end"%string = Some (Some s) /\ PyStr.int s = inr (stop c)).

(** A chapter list whose one row has its numbers out of order. *)
Definition unordered_records : list (list string) :=
  [ ["name"; "start"; "end"]%string; ["a"; "5"; "2"]%string ].

(** A chapter list whose last row is short of its [end] field. *)
Definition short_records : list (list string) :=
  [ ["name"; "start"; "end"]%string; ["a"; "1"; "2"]%string; ["b"; "3"]%string ].

(** [filenames] name, in order, the PDF documents [docs]. *)
Definition sources {Page} (fs : filesystem Page) (filenames : list string)
    (docs : list (list Page)) : Prop :=
  Forall2 (fun f d => fs !! f = Some (PdfFile d)) filenames docs.

(** The file system a run leaves behind. *)
Definition outcome_fs {Page} (o : outcome Page) : filesystem Page :=
  match o with
  | Completed fs => fs
  | SystemExit _ _ fs => fs
  | Uncaught _ fs => fs
  end.

(** The pages at the 1st, 3rd, 5th, ... place of a list, and those at the
    2nd, 4th, 6th, ... place. *)
Fixpoint fronts {A} (l : list A) : list A :=
  match l with
  | x :: _ :: l' => x :: fronts l'
  | [x] => [x]
  | [] => []
  end.

Fixpoint backs {A} (l : list A) : list A :=
  match l with
  | _ :: y :: l' => y :: backs l'
  | _ => []
  end.

(** A stack of sheets scanned on one side from the top, then turned over
    and scanned on the other side: the fronts in order, then the backs from
    the last to the first. *)
Definition scanned {A} (l : list A) : list A := fronts l ++ reverse (backs l).

(** * Properties *)

(** ** The shape of the reordered sequence *)

Section Interleave.

Context {A : Type}.
Implicit Types a b l : list A.

Lemma assign_stride_interleave a : forall b l,
  length b = length a ->
  length l = (2 * length a)%nat ->
  Py.assign_stride 0 2 l a ≫= (fun l1 => Py.assign_stride 1 2 l1 b)
  = Some (interleave a b).
Proof.
  induction a as [|x a IH]; intros b l Hb Hl.
  - destruct b; [|discriminate]. destruct l; [reflexivity|discriminate].
  - destruct b as [|y b]; [discriminate|].
    destruct l as [|u [|v l']]; simpl in Hb, Hl; [lia | lia |].
    specialize (IH b l' ltac:(lia) ltac:(lia)).
    simpl.
    destruct (Py.assign_stride 0 2 l' a) as [l1|] eqn:E1; [|discriminate].
    simpl in IH |- *. rewrite IH. reflexivity.
Qed.

Lemma length_interleave a : forall b,
  length b = length a -> length (interleave a b) = (2 * length a)%nat.
Proof.
  induction a as [|x a IH]; intros [|y b] Hb; simpl in *; try lia.
  rewrite IH; lia.
Qed.

Lemma interleave_lookup_even a : forall b (k : nat),
  length b = length a -> interleave a b !! (2 * k)%nat = a !! k.
Proof.
  induction a as [|x a IH]; intros [|y b] k Hb; try discriminate.
  - reflexivity.
  - destruct k as [|k]; [reflexivity|].
    replace (2 * S k)%nat with (S (S (2 * k))) by lia.
    simpl in *. apply IH. lia.
Qed.

Lemma interleave_lookup_odd a : forall b (k : nat),
  length b = length a -> interleave a b !! (2 * k + 1)%nat = b !! k.
Proof.
  induction a as [|x a IH]; intros [|y b] k Hb; try discriminate.
  - reflexivity.
  - destruct k as [|k]; [reflexivity|].
    replace (2 * S k + 1)%nat with (S (S (2 * k + 1))) by lia.
    simpl in *. apply IH. lia.
Qed.

Lemma interleave_Permutation a : forall b,
  length b = length a -> interleave a b ≡ₚ a ++ b.
Proof.
  induction a as [|x a IH]; intros [|y b] Hb; try discriminate.
  - reflexivity.
  - simpl in *. rewrite IH by lia.
    constructor. apply Permutation_middle.
Qed.

End Interleave.

Lemma length_front m : length (front m) = m.
Proof. unfold front. rewrite length_seqZ. lia. Qed.

Lemma length_back m : length (back m) = m.
Proof. unfold back. rewrite length_reverse, length_seqZ. lia. Qed.

Lemma front_lookup m (k : nat) :
  (k < m)%nat -> front m !! k = Some (Z.of_nat k).
Proof. intros Hk. unfold front. rewrite lookup_seqZ_lt by lia. f_equal. Qed.

Lemma back_lookup m (k : nat) :
  (k < m)%nat -> back m !! k = Some (2 * Z.of_nat m - 1 - Z.of_nat k).
Proof.
  intros Hk. unfold back.
  rewrite reverse_lookup by (rewrite length_seqZ; lia).
  rewrite length_seqZ, lookup_seqZ_lt by lia. f_equal. lia.
Qed.

Lemma clamp_length_app {A} (a b : list A) :
  Py.clamp (length (a ++ b)) (Z.of_nat (length a)) = length a.
Proof.
  unfold Py.clamp. rewrite length_app.
  destruct (Z.ltb_spec (Z.of_nat (length a)) 0); lia.
Qed.

Lemma slice_to_app {A} (a b : list A) :
  Py.slice_to (Z.of_nat (length a)) (a ++ b) = a.
Proof. unfold Py.slice_to. rewrite clamp_length_app. apply take_app_length. Qed.

Lemma slice_from_app {A} (a b : list A) :
  Py.slice_from (Z.of_nat (length a)) (a ++ b) = b.
Proof. unfold Py.slice_from. rewrite clamp_length_app. apply drop_app_length. Qed.

Lemma range_double (m : nat) :
  Py.range 0 (2 * Z.of_nat m) = front m ++ seqZ (Z.of_nat m) (Z.of_nat m).
Proof.
  unfold Py.range, front.
  replace (2 * Z.of_nat m - 0) with (Z.of_nat m + Z.of_nat m) by lia.
  rewrite seqZ_app by lia. reflexivity.
Qed.

(** On an even, non-negative page count the transform returns the
    alternation of the two halves. *)
Lemma make_sequence_double (m : nat) :
  _make_sequence (2 * Z.of_nat m) = inr (interleave (front m) (back m)).
Proof.
  unfold _make_sequence.
  replace (2 * Z.of_nat m mod 2 =? 0) with true
    by (symmetry; apply Z.eqb_eq; rewrite Z.mul_comm; apply Z_mod_mult).
  cbn [py_assert bind ret]. cbv zeta.
  rewrite range_double.
  assert (Hlen : length (front m ++ seqZ (Z.of_nat m) (Z.of_nat m)) = (2 * m)%nat).
  { rewrite length_app, length_front, length_seqZ. lia. }
  replace (Z.of_nat (length (front m ++ seqZ (Z.of_nat m) (Z.of_nat m))) / 2)
    with (Z.of_nat (length (front m))).
  2:{ rewrite Hlen, length_front, Nat2Z.inj_mul, Z.mul_comm, Z_div_mult; lia. }
  rewrite slice_to_app, slice_from_app. fold (back m).
  set (pages := front m ++ seqZ (Z.of_nat m) (Z.of_nat m)) in *.
  pose proof (assign_stride_interleave (front m) (back m) pages) as H.
  rewrite length_back, length_front in H.
  specialize (H eq_refl Hlen).
  unfold Py.set_ext_slice.
  destruct (Py.assign_stride 0 2 pages (front m)) as [l1|]; [|discriminate].
  simpl in H |- *. rewrite H. reflexivity.
Qed.

(** An even number is twice a natural number, or negative. *)
Lemma even_cases (n : Z) :
  n mod 2 = 0 -> 0 <= n -> n = 2 * Z.of_nat (Z.to_nat (n / 2)).
Proof.
  intros Hn H0. rewrite Z2Nat.id by (apply Z.div_pos; lia).
  rewrite (Z.div_mod n 2) at 1 by lia. lia.
Qed.

Lemma even_mod (n : Z) : Z.even n = true -> n mod 2 = 0.
Proof. intros H. rewrite Zmod_even, H. reflexivity. Qed.

Lemma odd_mod (n : Z) : Z.odd n = true -> n mod 2 = 1.
Proof. intros H. rewrite Zmod_odd, H. reflexivity. Qed.

Lemma make_sequence_even (n : Z) :
  0 <= n -> Z.even n = true ->
  _make_sequence n
  = inr (interleave (front (Z.to_nat (n / 2))) (back (Z.to_nat (n / 2)))).
Proof.
  intros H0 Hn. rewrite (even_cases n) at 1 by auto using even_mod.
  apply make_sequence_double.
Qed.

(** Entries of the alternation, by position. *)
Lemma interleave_halves_lookup (m : nat) (k : nat) :
  (k < m)%nat ->
  interleave (front m) (back m) !! (2 * k)%nat = Some (Z.of_nat k)
  /\ interleave (front m) (back m) !! (2 * k + 1)%nat
     = Some (2 * Z.of_nat m - 1 - Z.of_nat k).
Proof.
  intros Hk. split.
  - rewrite interleave_lookup_even by (rewrite length_back, length_front; lia).
    apply front_lookup, Hk.
  - rewrite interleave_lookup_odd by (rewrite length_back, length_front; lia).
    apply back_lookup, Hk.
Qed.

Lemma interleave_halves_Permutation (m : nat) :
  interleave (front m) (back m) ≡ₚ Py.range 0 (2 * Z.of_nat m).
Proof.
  rewrite interleave_Permutation by (rewrite length_back, length_front; lia).
  rewrite range_double. unfold back. rewrite reverse_Permutation. reflexivity.
Qed.

(** ** Reading pages in a given order *)

Lemma index_lookup {A} (l : list A) (i : Z) (x : A) :
  0 <= i -> l !! Z.to_nat i = Some x -> Py.index l i = inr x.
Proof.
  intros Hi Hx. unfold Py.index.
  destruct (Z.ltb_spec i 0); [lia|].
  destruct (Z.ltb_spec i 0); [lia|].
  rewrite Hx. reflexivity.
Qed.

Lemma for_each_total {A B} (f : A -> result B) (g : A -> B) (l : list A) :
  (forall x, x ∈ l -> f x = inr (g x)) -> for_each f l = inr (g <$> l).
Proof.
  induction l as [|x l IH]; intros H; [reflexivity|].
  simpl. rewrite (H x) by left. simpl.
  rewrite IH by (intros y Hy; apply H; right; exact Hy). reflexivity.
Qed.

(** Reading a document at in-range page numbers succeeds, and position [j]
    of what is read is the page whose number stands at position [j]. *)
Lemma select_pages_spec {Page} (doc : list Page) (order : list Z) :
  (forall i, i ∈ order -> 0 <= i < Z.of_nat (length doc)) ->
  exists out,
    select_pages doc order = inr out
    /\ length out = length order
    /\ forall (j : nat) (i : Z),
         order !! j = Some i -> out !! j = doc !! Z.to_nat i.
Proof.
  intros Hrange.
  destruct doc as [|p0 doc'] eqn:Edoc.
  { destruct order as [|i order'].
    - exists []. split; [reflexivity|]. split; [reflexivity|].
      intros j i Hj. rewrite lookup_nil in Hj. discriminate.
    - specialize (Hrange i ltac:(left)). simpl in Hrange. lia. }
  rewrite <- Edoc in *. clear Edoc doc'.
  exists ((fun i => default p0 (doc !! Z.to_nat i)) <$> order).
  split; [|split].
  - apply for_each_total. intros i Hi.
    specialize (Hrange i Hi).
    destruct (lookup_lt_is_Some_2 doc (Z.to_nat i) ltac:(lia)) as [x Hx].
    rewrite Hx. simpl. apply index_lookup; [lia | exact Hx].
  - apply length_fmap.
  - intros j i Hj. rewrite list_lookup_fmap, Hj. simpl.
    specialize (Hrange i ltac:(eapply list_elem_of_lookup_2; exact Hj)).
    destruct (lookup_lt_is_Some_2 doc (Z.to_nat i) ltac:(lia)) as [x Hx].
    rewrite Hx. reflexivity.
Qed.

(** ** The reorder transform: claims *)

(** Length and entries of the sequence for an even, non-negative count. *)
Lemma make_sequence_entries (n : Z) :
  0 <= n -> Z.even n = true ->
  exists R : list Z,
    _make_sequence n = inr R
    /\ Z.of_nat (length R) = n
    /\ forall k : Z, 0 <= k < n / 2 ->
         R !! Z.to_nat (2 * k) = Some k
         /\ R !! Z.to_nat (2 * k + 1) = Some (n - 1 - k).
Proof.
  intros H0 Hn.
  pose proof (even_cases n (even_mod n Hn) H0) as En.
  set (m := Z.to_nat (n / 2)) in *.
  exists (interleave (front m) (back m)). split; [|split].
  - apply make_sequence_even; assumption.
  - rewrite length_interleave by (rewrite length_back, length_front; lia).
    rewrite length_front. lia.
  - intros k Hk.
    assert (Hkm : (Z.to_nat k < m)%nat) by (unfold m; lia).
    destruct (interleave_halves_lookup m (Z.to_nat k) Hkm) as [He Ho].
    replace (Z.to_nat (2 * k)) with (2 * Z.to_nat k)%nat by lia.
    replace (Z.to_nat (2 * k + 1)) with (2 * Z.to_nat k + 1)%nat by lia.
    rewrite He, Ho. split; f_equal; lia.
Qed.

(** The sequence for an even, non-negative count rearranges [0..n-1]. *)
Lemma make_sequence_range (n : Z) :
  0 <= n -> Z.even n = true ->
  exists R : list Z,
    _make_sequence n = inr R
    /\ Z.of_nat (length R) = n
    /\ R ≡ₚ Py.range 0 n.
Proof.
  intros H0 Hn.
  pose proof (even_cases n (even_mod n Hn) H0) as En.
  set (m := Z.to_nat (n / 2)) in *.
  pose proof (interleave_halves_Permutation m) as HP. rewrite <- En in HP.
  exists (interleave (front m) (back m)). split; [|split].
  - apply make_sequence_even; assumption.
  - rewrite length_interleave by (rewrite length_back, length_front; lia).
    rewrite length_front. lia.
  - exact HP.
Qed.

Lemma elem_of_range (a b i : Z) : i ∈ Py.range a b <-> a <= i < b.
Proof. unfold Py.range. rewrite elem_of_seqZ. lia. Qed.

(** C1. For every non-negative even [n], [_make_sequence n] returns a
    sequence [R] of length [n] with [R[2k] = k] and [R[2k+1] = n-1-k] for
    every [k] in [0..n/2-1]; for [n = 4] it is [[0, 3, 1, 2]] and for
    [n = 8] it is [[0, 7, 1, 6, 2, 5, 3, 4]]. *)
Theorem make_sequence_shape :
  (forall n : Z, 0 <= n -> Z.even n = true ->
     exists R : list Z,
       _make_sequence n = inr R
       /\ Z.of_nat (length R) = n
       /\ forall k : Z, 0 <= k < n / 2 ->
            R !! Z.to_nat (2 * k) = Some k
            /\ R !! Z.to_nat (2 * k + 1) = Some (n - 1 - k))
  /\ _make_sequence 4 = inr [0; 3; 1; 2]
  /\ _make_sequence 8 = inr [0; 7; 1; 6; 2; 5; 3; 4].
Proof.
  split; [exact make_sequence_entries | split; reflexivity].
Qed.

Lemma make_sequence_shape_witness :
  exists R : list Z,
    _make_sequence 6 = inr R
    /\ Z.of_nat (length R) = 6
    /\ forall k : Z, 0 <= k < 6 / 2 ->
         R !! Z.to_nat (2 * k) = Some k
         /\ R !! Z.to_nat (2 * k + 1) = Some (6 - 1 - k).
Proof.
  apply (proj1 make_sequence_shape 6); [lia | reflexivity].
Defined.

(** C2. For every even [n >= 2], the sequence [_make_sequence n] returns is
    a permutation of [0..n-1]: it has length [n], no index occurs twice,
    and every index of the range occurs. *)
Theorem make_sequence_permutation (n : Z) :
  2 <= n -> Z.even n = true ->
  exists R : list Z,
    _make_sequence n = inr R
    /\ Z.of_nat (length R) = n
    /\ NoDup R
    /\ (forall i : Z, i ∈ R <-> 0 <= i < n)
    /\ R ≡ₚ Py.range 0 n.
Proof.
  intros H2 Hn.
  destruct (make_sequence_range n ltac:(lia) Hn) as (R & HR & Hlen & HP).
  exists R. split; [|split; [|split; [|split]]]; try assumption.
  - rewrite HP. apply NoDup_seqZ.
  - intros i. rewrite HP. apply elem_of_range.
Qed.

Lemma make_sequence_permutation_witness :
  exists R : list Z,
    _make_sequence 6 = inr R
    /\ Z.of_nat (length R) = 6
    /\ NoDup R
    /\ (forall i : Z, i ∈ R <-> 0 <= i < 6)
    /\ R ≡ₚ Py.range 0 6.
Proof.
  apply (make_sequence_permutation 6); [lia | reflexivity].
Defined.

(** C3. For every odd [n], [_make_sequence n] raises (the assertion on its
    argument fails) and returns no sequence. *)
Theorem make_sequence_odd (n : Z) :
  Z.odd n = true -> _make_sequence n = inl AssertionError.
Proof.
  intros Hn. unfold _make_sequence. rewrite (odd_mod n Hn). reflexivity.
Qed.

Lemma make_sequence_odd_witness : _make_sequence 7 = inl AssertionError.
Proof. apply (make_sequence_odd 7). reflexivity. Defined.

(** Reordering a document of [n > 2] distinct pages twice leaves, at the
    second position, the page that was in the middle. *)
Lemma reorder_twice_differs {Page} (n : Z) (doc : list Page) :
  2 < n -> Z.even n = true ->
  Z.of_nat (length doc) = n -> NoDup doc ->
  exists (R : list Z) (once twice : list Page),
    _make_sequence n = inr R
    /\ select_pages doc R = inr once
    /\ select_pages once R = inr twice
    /\ twice <> doc.
Proof.
  intros H2 Hn Hlen Hnodup.
  destruct (make_sequence_range n ltac:(lia) Hn) as (R & HR & HlenR & HP).
  assert (Hin : forall i, i ∈ R -> 0 <= i < n).
  { intros i. rewrite HP. apply elem_of_range. }
  destruct (make_sequence_entries n ltac:(lia) Hn) as (R' & HR' & _ & Hshape).
  rewrite HR in HR'. injection HR' as <-.
  destruct (select_pages_spec doc R) as (once & Honce & Hlen1 & Hat1).
  { intros i Hi. apply Hin in Hi. lia. }
  destruct (select_pages_spec once R) as (twice & Htwice & Hlen2 & Hat2).
  { intros i Hi. apply Hin in Hi. lia. }
  exists R, once, twice. repeat (split; [assumption|]).
  intros Heq.
  (* R[1] = n-1 and R[n-1] = n/2 *)
  destruct (Hshape 0 ltac:(split; [lia | apply Z.div_str_pos; lia])) as [_ H1].
  pose proof (even_cases n (even_mod n Hn) ltac:(lia)) as En.
  destruct (Hshape (n / 2 - 1) ltac:(lia)) as [_ Hlast].
  change (Z.to_nat (2 * 0 + 1)) with 1%nat in H1.
  replace (Z.to_nat (2 * (n / 2 - 1) + 1)) with (Z.to_nat (n - 1)) in Hlast by lia.
  replace (n - 1 - (n / 2 - 1)) with (n / 2) in Hlast by lia.
  pose proof (Hat2 1%nat _ H1) as T1.
  replace (n - 1 - 0) with (n - 1) in T1 by lia.
  rewrite (Hat1 _ _ Hlast) in T1.
  rewrite Heq in T1.
  destruct (lookup_lt_is_Some_2 doc 1 ltac:(lia)) as [p Hp].
  rewrite Hp in T1. symmetry in T1.
  pose proof (NoDup_lookup _ _ _ _ Hnodup Hp T1). lia.
Qed.

(** C7. For every even [n > 2], composing the permutation [_make_sequence n]
    with itself is not the identity on [0..n-1]: [RR], with
    [RR[i] = R[R[i]]], differs from [[0, ..., n-1]]. *)
Theorem make_sequence_not_self_inverse (n : Z) :
  2 < n -> Z.even n = true ->
  exists R RR : list Z,
    _make_sequence n = inr R
    /\ select_pages R R = inr RR
    /\ (forall (i : nat) (j : Z),
          R !! i = Some j -> RR !! i = R !! Z.to_nat j)
    /\ RR <> Py.range 0 n.
Proof.
  intros H2 Hn.
  destruct (reorder_twice_differs n (Py.range 0 n) H2 Hn)
    as (R & once & twice & HR & Honce & Htwice & Hne).
  { unfold Py.range. rewrite length_seqZ. lia. }
  { apply NoDup_seqZ. }
  destruct (make_sequence_range n ltac:(lia) Hn) as (R' & HR' & HlenR & HP).
  rewrite HR in HR'. injection HR' as <-.
  assert (Hin : forall i, i ∈ R -> 0 <= i < n).
  { intros i. rewrite HP. apply elem_of_range. }
  assert (Hrange : forall i, i ∈ R -> 0 <= i < Z.of_nat (length R)).
  { intros i Hi. apply Hin in Hi. lia. }
  (* reading the identity document in the order R gives R *)
  assert (once = R) as ->.
  { destruct (select_pages_spec (Py.range 0 n) R) as (out & Hout & Hl & Hat).
    { intros i Hi. apply Hin in Hi. unfold Py.range. rewrite length_seqZ. lia. }
    rewrite Honce in Hout. injection Hout as <-.
    apply list_eq. intros j.
    destruct (R !! j) as [i|] eqn:Ej.
    - rewrite (Hat _ _ Ej). unfold Py.range.
      assert (0 <= i < n) by (apply Hin; eapply list_elem_of_lookup_2; exact Ej).
      rewrite lookup_seqZ_lt by lia. f_equal. lia.
    - apply lookup_ge_None. apply lookup_ge_None in Ej. lia. }
  destruct (select_pages_spec R R Hrange) as (out & Hout & _ & Hat).
  rewrite Htwice in Hout. injection Hout as <-.
  exists R, twice. auto.
Qed.

Lemma make_sequence_not_self_inverse_witness :
  exists R RR : list Z,
    _make_sequence 4 = inr R
    /\ select_pages R R = inr RR
    /\ (forall (i : nat) (j : Z),
          R !! i = Some j -> RR !! i = R !! Z.to_nat j)
    /\ RR <> Py.range 0 4.
Proof.
  apply (make_sequence_not_self_inverse 4); [lia | reflexivity].
Defined.

(** C8 as stated fails at the even page count 0: the sequence is empty and
    has no first or second entry. *)
Lemma starts_front_back_fails_at_zero :
  Z.even 0 = true /\ _make_sequence 0 = inr [] /\ ~ starts_front_back 0.
Proof.
  split; [reflexivity|]. split; [reflexivity|].
  intros (R & HR & H0 & _).
  change (_make_sequence 0) with (@inr exn (list Z) []) in HR.
  injection HR as <-. discriminate.
Qed.

(** C8, amended. For every even [n >= 2], the sequence [R] returned by
    [_make_sequence n] has [R[0] = 0] and [R[1] = n-1]. *)
Theorem make_sequence_first_two (n : Z) :
  Z.even n = true -> 2 <= n -> starts_front_back n.
Proof.
  intros Hn H2.
  destruct (make_sequence_entries n ltac:(lia) Hn) as (R & HR & _ & Hshape).
  exists R. split; [exact HR|].
  destruct (Hshape 0 ltac:(split; [lia | apply Z.div_str_pos; lia])) as [He Ho].
  change (Z.to_nat (2 * 0)) with 0%nat in He.
  change (Z.to_nat (2 * 0 + 1)) with 1%nat in Ho.
  rewrite He, Ho. split; f_equal; lia.
Qed.

Lemma make_sequence_first_two_witness : starts_front_back 8.
Proof.
  apply (make_sequence_first_two 8); [reflexivity | lia].
Defined.

(** ** split.py: claims *)

(** Reading the page numbers [a..b-1] in turn yields that stretch of the
    document. *)
Lemma read_range {Page} (doc : list Page) (a b : Z) :
  0 <= a -> a <= b -> b <= Z.of_nat (length doc) ->
  for_each (Py.index doc) (Py.range a b)
  = inr (take (Z.to_nat (b - a)) (drop (Z.to_nat a) doc)).
Proof.
  intros Ha Hab Hb.
  destruct (select_pages_spec doc (Py.range a b)) as (out & Hout & Hlen & Hat).
  { intros i Hi. apply elem_of_range in Hi. lia. }
  unfold select_pages in Hout. rewrite Hout. f_equal.
  unfold Py.range in *. rewrite length_seqZ in Hlen.
  apply list_eq. intros j.
  destruct (decide (j < Z.to_nat (b - a))%nat) as [Hj|Hj].
  - rewrite (Hat j (a + Z.of_nat j)) by (apply lookup_seqZ_lt; lia).
    rewrite lookup_take_lt by exact Hj. rewrite lookup_drop.
    f_equal. lia.
  - rewrite lookup_take_ge by lia. apply lookup_ge_None. lia.
Qed.

(** Page [k] of the document, counted from 1, stands at position
    [k - start] of the chapter's pages, and there are [stop - start + 1]
    of them. *)
Lemma chapter_pages_lookup {Page} (doc : list Page) (c : Chapter) (k : Z) :
  1 <= start c -> start c <= k <= stop c ->
  chapter_pages doc c !! Z.to_nat (k - start c) = doc !! Z.to_nat (k - 1).
Proof.
  intros H1 Hk. unfold chapter_pages.
  rewrite lookup_take_lt by lia. rewrite lookup_drop. f_equal. lia.
Qed.

Lemma length_chapter_pages {Page} (doc : list Page) (c : Chapter) :
  chapter_in_bounds (Z.of_nat (length doc)) c ->
  Z.of_nat (length (chapter_pages doc c)) = stop c - start c + 1.
Proof.
  intros (H1 & H2 & H3). unfold chapter_pages.
  rewrite length_take, length_drop. lia.
Qed.


(** ** More on the sequence and on reading pages *)

Lemma make_sequence_not_even (n : Z) :
  Z.even n = false -> _make_sequence n = inl AssertionError.
Proof.
  intros Hn. unfold _make_sequence. rewrite Zmod_even, Hn. reflexivity.
Qed.

(** Reading every page number of a document once yields a rearrangement of
    the document. *)
Lemma select_pages_Permutation {Page} (doc : list Page) (order : list Z) :
  order ≡ₚ Py.range 0 (Z.of_nat (length doc)) ->
  exists out, select_pages doc order = inr out /\ out ≡ₚ doc.
Proof.
  intros HP.
  destruct doc as [|p0 doc'] eqn:Edoc.
  { apply Permutation_nil_r in HP. subst order. exists []. split; reflexivity. }
  rewrite <- Edoc in *.
  set (f := fun i : Z => default p0 (doc !! Z.to_nat i)).
  exists (f <$> order). split.
  - apply for_each_total. intros i Hi. rewrite HP in Hi.
    apply elem_of_range in Hi. unfold f.
    destruct (lookup_lt_is_Some_2 doc (Z.to_nat i) ltac:(lia)) as [x Hx].
    rewrite Hx. apply index_lookup; [lia | exact Hx].
  - rewrite HP. unfold Py.range.
    replace (f <$> seqZ 0 (Z.of_nat (length doc) - 0)) with doc; [reflexivity|].
    apply list_eq. intros j. rewrite list_lookup_fmap.
    destruct (decide (j < length doc)%nat) as [Hj|Hj].
    + rewrite lookup_seqZ_lt by lia. simpl. unfold f.
      replace (Z.to_nat (0 + Z.of_nat j)) with j by lia.
      destruct (lookup_lt_is_Some_2 doc j Hj) as [x Hx]. rewrite Hx. reflexivity.
    + rewrite lookup_seqZ_ge by lia. apply lookup_ge_None. lia.
Qed.


(** ** Paths, places and files *)

Section FileSystemFacts.

Context {Page : Type}.
Implicit Types (fs : filesystem Page) (nd : node Page).

Lemma lookup_located fs p place :
  locate fs p = Some place -> fs !! p = files fs !! place.
Proof.
  intros H. unfold lookup, filesystem_lookup, path_lookup. rewrite H. reflexivity.
Qed.

Lemma lookup_nowhere fs p : locate fs p = None -> fs !! p = None.
Proof.
  intros H. unfold lookup, filesystem_lookup, path_lookup. rewrite H. reflexivity.
Qed.

Lemma lookup_Some_located fs p nd :
  fs !! p = Some nd ->
  exists place, locate fs p = Some place /\ files fs !! place = Some nd.
Proof.
  unfold lookup at 1, filesystem_lookup, path_lookup.
  destruct (locate fs p) as [place|]; [|discriminate].
  intros H. exists place. auto.
Qed.

(** After a file is put at a place, the paths that lead there name it and
    all others name what they named. *)
Lemma lookup_store_same fs place nd q :
  locate fs q = Some place -> store place nd fs !! q = Some nd.
Proof.
  intros H. unfold lookup at 1, filesystem_lookup, path_lookup. simpl.
  rewrite H. apply lookup_insert_eq.
Qed.

Lemma lookup_store_other fs place nd q :
  locate fs q <> Some place -> store place nd fs !! q = fs !! q.
Proof.
  intros H. unfold lookup, filesystem_lookup, path_lookup. simpl.
  destruct (locate fs q) as [place'|]; [|reflexivity].
  apply lookup_insert_ne. congruence.
Qed.

Lemma path_exists_true fs p : is_Some (fs !! p) -> path_exists fs p = true.
Proof. intros [nd H]. unfold path_exists. rewrite H. reflexivity. Qed.

Lemma path_exists_false fs p : fs !! p = None -> path_exists fs p = false.
Proof. intros H. unfold path_exists. rewrite H. reflexivity. Qed.

Lemma path_exists_false_inv fs p : path_exists fs p = false -> fs !! p = None.
Proof. unfold path_exists. destruct (fs !! p); [discriminate | reflexivity]. Qed.

Lemma free_path_lookup fs p : free_path fs p -> fs !! p = None.
Proof. intros (place & Hp & Hf). rewrite (lookup_located _ _ _ Hp). exact Hf. Qed.

Lemma read_pdf_ok fs p (doc : list Page) :
  fs !! p = Some (PdfFile doc) -> read_pdf p fs = (inr doc, fs).
Proof.
  intros H. apply lookup_Some_located in H as (place & Hp & Hf).
  unfold read_pdf. rewrite Hp, Hf. reflexivity.
Qed.

Lemma read_pdf_cases fs p :
  (exists e, read_pdf p fs = (inl e, fs))
  \/ (exists doc, fs !! p = Some (PdfFile doc) /\ read_pdf p fs = (inr doc, fs)).
Proof.
  unfold read_pdf.
  destruct (locate fs p) as [place|] eqn:Hp; [|left; eexists; reflexivity].
  rewrite (lookup_located _ _ _ Hp).
  destruct (files fs !! place) as [[doc|records|]|];
    try (left; eexists; reflexivity).
  right. exists doc. split; reflexivity.
Qed.

Lemma read_csv_ok fs p records :
  fs !! p = Some (CsvFile records) -> read_csv p fs = (inr records, fs).
Proof.
  intros H. apply lookup_Some_located in H as (place & Hp & Hf).
  unfold read_csv. rewrite Hp, Hf. reflexivity.
Qed.

Lemma write_pdf_ok fs p (pages : list Page) place :
  locate fs p = Some place ->
  files fs !! place <> Some Directory ->
  write_pdf p pages fs = (inr tt, store place (PdfFile pages) fs).
Proof.
  intros Hp Hd. unfold write_pdf. rewrite Hp.
  destruct (files fs !! place) as [[| |]|]; try reflexivity. contradiction.
Qed.

(** Writing either raises and changes nothing, or puts the document at the
    place the path leads to, where no directory is. *)
Lemma write_pdf_cases fs p (pages : list Page) :
  (exists e, write_pdf p pages fs = (inl e, fs))
  \/ (exists place,
        locate fs p = Some place
        /\ files fs !! place <> Some Directory
        /\ write_pdf p pages fs = (inr tt, store place (PdfFile pages) fs)).
Proof.
  unfold write_pdf.
  destruct (locate fs p) as [place|]; [|left; eexists; reflexivity].
  destruct (files fs !! place) as [[| |]|] eqn:Hf;
    try (right; exists place; split; [reflexivity|];
         split; [rewrite Hf; discriminate | reflexivity]).
  left. eexists. reflexivity.
Qed.

End FileSystemFacts.

Section SplitFacts.

Context {Page : Type}.
Implicit Types (fs : filesystem Page) (doc : list Page) (c : Chapter).

Lemma split_unfold fs filename directory chapters :
  is_Some (fs !! filename) ->
  split filename chapters directory fs
  = io_for (split_chapter filename directory) chapters fs.
Proof.
  intros H. unfold split, io_bind, os_path_exists, lift.
  rewrite (path_exists_true _ _ H). reflexivity.
Qed.

(** One chapter, given what reading its page numbers yields. *)
Lemma split_chapter_run fs filename directory doc c :
  fs !! filename = Some (PdfFile doc) ->
  split_chapter filename directory c fs
  = match for_each (Py.index doc) (Py.range (start c - 1) (stop c)) with
    | inl e => (inl e, fs)
    | inr out =>
        match name c with
        | None => (inl TypeError, fs)
        | Some n => write_pdf (PyStr.join directory n) out fs
        end
    end.
Proof.
  intros Hin. unfold split_chapter, io_bind at 1 2 3.
  rewrite (read_pdf_ok _ _ _ Hin). unfold lift.
  destruct (for_each _ _) as [e|out]; [reflexivity|].
  destruct (name c) as [n|]; reflexivity.
Qed.

(** One chapter in bounds, with a name that leads to a writable place. *)
Lemma split_chapter_writes fs filename directory doc c n place :
  fs !! filename = Some (PdfFile doc) ->
  chapter_in_bounds (Z.of_nat (length doc)) c ->
  name c = Some n ->
  locate fs (PyStr.join directory n) = Some place ->
  files fs !! place <> Some Directory ->
  split_chapter filename directory c fs
  = (inr tt, store place (PdfFile (chapter_pages doc c)) fs).
Proof.
  intros Hin (H1 & H2 & H3) Hn Hp Hd.
  rewrite (split_chapter_run fs filename directory doc c Hin).
  rewrite read_range by lia. rewrite Hn.
  replace (stop c - (start c - 1)) with (stop c - start c + 1) by lia.
  fold (chapter_pages doc c).
  apply write_pdf_ok; assumption.
Qed.

End SplitFacts.

(** C4. For every chapter [(name, start, stop)] with
    [1 <= start <= stop <= total page count], [split] writes a file named
    [name] (joined to the output directory) holding exactly the pages
    [start..stop] of the input document in their original order; chapter
    [("a", 1, 3)] on a 5-page document yields pages 1, 2, 3 in that order.
    The input path holds the document; the output path can be opened for
    writing (it leads to a place where no directory is) and is not the
    input file. *)
Theorem split_chapter_range :
  (forall (Page : Type) (fs : filesystem Page) (filename directory : string)
          (doc : list Page) (c : Chapter) (n : string),
     fs !! filename = Some (PdfFile doc) ->
     name c = Some n ->
     1 <= start c -> start c <= stop c -> stop c <= Z.of_nat (length doc) ->
     can_write fs (PyStr.join directory n) ->
     ~ same_file fs (PyStr.join directory n) filename ->
     exists fs',
       split filename [c] directory fs = (inr tt, fs')
       /\ fs' !! PyStr.join directory n
          = Some (PdfFile (chapter_pages doc c))
       /\ fs' !! filename = Some (PdfFile doc))
  /\ (forall (Page : Type) (p1 p2 p3 p4 p5 : Page) (fs : filesystem Page)
             (filename directory : string),
        fs !! filename = Some (PdfFile [p1; p2; p3; p4; p5]) ->
        can_write fs (PyStr.join directory "a") ->
        ~ same_file fs (PyStr.join directory "a") filename ->
        exists fs',
          split filename [mkChapter (Some "a"%string) 1 3] directory fs
          = (inr tt, fs')
          /\ fs' !! PyStr.join directory "a" = Some (PdfFile [p1; p2; p3])
          /\ fs' !! filename = Some (PdfFile [p1; p2; p3; p4; p5])).
Proof.
  assert (Hone : forall (Page : Type) (fs : filesystem Page)
            (filename directory : string) (doc : list Page) (c : Chapter)
            (n : string),
     fs !! filename = Some (PdfFile doc) ->
     name c = Some n ->
     chapter_in_bounds (Z.of_nat (length doc)) c ->
     can_write fs (PyStr.join directory n) ->
     ~ same_file fs (PyStr.join directory n) filename ->
     exists fs',
       split filename [c] directory fs = (inr tt, fs')
       /\ fs' !! PyStr.join directory n = Some (PdfFile (chapter_pages doc c))
       /\ fs' !! filename = Some (PdfFile doc)).
  { intros Page fs filename directory doc c n Hin Hn Hc (place & Hp & Hd) Hother.
    exists (store place (PdfFile (chapter_pages doc c)) fs).
    split; [|split].
    - rewrite split_unfold by (rewrite Hin; eexists; reflexivity).
      cbn [io_for]. unfold io_bind.
      rewrite (split_chapter_writes fs filename directory doc c n place
                 Hin Hc Hn Hp Hd).
      reflexivity.
    - apply lookup_store_same, Hp.
    - rewrite lookup_store_other; [exact Hin|].
      intros Hsame. apply Hother. exists place. auto. }
  split.
  - intros Page fs filename directory doc c n Hin Hn H1 H2 H3 Hw Hother.
    apply (Hone Page fs filename directory doc c n Hin Hn); [|exact Hw|exact Hother].
    repeat split; assumption.
  - intros Page p1 p2 p3 p4 p5 fs filename directory Hin Hw Hother.
    apply (Hone Page fs filename directory [p1; p2; p3; p4; p5]
             (mkChapter (Some "a"%string) 1 3) "a"%string Hin eq_refl);
      [|exact Hw|exact Hother].
    unfold chapter_in_bounds. simpl. lia.
Qed.

Lemma split_chapter_range_witness :
  let fs : filesystem nat :=
    folder "/docs" {[ "/docs/book.pdf"%string := PdfFile [11; 12; 13; 14; 15]%nat ]} in
  exists fs' : filesystem nat,
    split "book.pdf" [mkChapter (Some "ch2"%string) 2 4] "/docs" fs = (inr tt, fs')
    /\ fs' !! "/docs/ch2"%string = Some (PdfFile [12; 13; 14]%nat)
    /\ fs' !! "book.pdf"%string = Some (PdfFile [11; 12; 13; 14; 15]%nat).
Proof.
  intros fs.
  apply (proj1 split_chapter_range nat fs "book.pdf" "/docs"
           [11; 12; 13; 14; 15]%nat (mkChapter (Some "ch2"%string) 2 4)
           "ch2"%string).
  - reflexivity.
  - reflexivity.
  - simpl; lia.
  - simpl; lia.
  - simpl; lia.
  - exists "/docs/ch2"%string. split; [reflexivity | vm_compute; discriminate].
  - intros (place & H1 & H2). vm_compute in H1, H2. congruence.
Defined.

(** ** The chapter list *)

Lemma for_each_inr {A B} (f : A -> result B) (l : list A) (ys : list B) :
  for_each f l = inr ys <-> Forall2 (fun x y => f x = inr y) l ys.
Proof.
  revert ys. induction l as [|x l IH]; intros ys; simpl.
  - split.
    + intros H. injection H as <-. constructor.
    + intros H. inversion H. reflexivity.
  - split.
    + destruct (f x) as [e|y] eqn:Ex; simpl; [discriminate|].
      destruct (for_each f l) as [e|ys'] eqn:El; simpl; [discriminate|].
      intros H. injection H as <-. constructor; [exact Ex|].
      apply IH. reflexivity.
    + intros H. inversion H as [|x' y l' ys' Hxy Hrest]; subst.
      rewrite Hxy. simpl. apply IH in Hrest. rewrite Hrest. reflexivity.
Qed.

Lemma parse_row_chapter (r : row) (c : Chapter) :
  parse_row r = inr c <-> row_chapter r c.
Proof.
  unfold parse_row, row_chapter, dict_get, py_int. split.
  - destruct (r !! "name"%string) as [n|]; simpl; [|discriminate].
    destruct (r !! "start"%string) as [[s1|]|]; simpl; try discriminate.
    destruct (PyStr.int s1) as [e|v1] eqn:E1; simpl; [discriminate|].
    destruct (r !! "end"%string) as [[s2|]|]; simpl; try discriminate.
    destruct (PyStr.int s2) as [e|v2] eqn:E2; simpl; [discriminate|].
    intros H. injection H as <-. simpl.
    split; [reflexivity|]. split; eexists; split; (reflexivity || eassumption).
  - intros (Hn & (s1 & Hs1 & E1) & (s2 & Hs2 & E2)).
    rewrite Hn, Hs1. simpl. rewrite E1. simpl. rewrite Hs2. simpl.
    rewrite E2. simpl. destruct c; reflexivity.
Qed.

Lemma parse_rows_chapters (rows : list row) (chapters : list Chapter) :
  for_each parse_row rows = inr chapters <-> Forall2 row_chapter rows chapters.
Proof.
  rewrite for_each_inr.
  split; intros H; (eapply Forall2_impl; [exact H|]);
    intros r c; apply parse_row_chapter.
Qed.

Lemma parse_splits_file_run {Page} (fs : filesystem Page) (filename : string)
    (records : list (list string)) :
  fs !! filename = Some (CsvFile records) ->
  _parse_splits_file filename fs
  = (for_each parse_row (dict_reader records), fs).
Proof.
  intros Hfile.
  unfold _parse_splits_file, io_bind, os_path_exists, lift.
  rewrite path_exists_true by (rewrite Hfile; eexists; reflexivity).
  cbn [ret py_assert]. rewrite (read_csv_ok _ _ _ Hfile). reflexivity.
Qed.

(** C9 as stated fails: the file with the one row [a,5,2] is parsed to the
    chapter [("a", 5, 2)], which breaks [start <= stop] whatever the page
    count of the document. *)
Lemma parse_splits_file_unchecked :
  let fs : filesystem nat :=
    folder "/docs"
      {[ "/docs/chapters.csv"%string := CsvFile unordered_records;
         "/docs/book.pdf"%string := PdfFile [1; 2; 3; 4; 5; 6]%nat ]} in
  plain_records unordered_records
  /\ _parse_splits_file "chapters.csv" fs
     = (inr [mkChapter (Some "a"%string) 5 2], fs)
  /\ forall total : Z, ~ chapter_in_bounds total (mkChapter (Some "a"%string) 5 2).
Proof.
  split; [|split].
  - repeat constructor.
  - vm_compute. reflexivity.
  - intros total (_ & H & _). simpl in H. lia.
Qed.

(** C9, amended. On a chapter list of plain fields (ASCII, no longer than
    [int] converts), the chapters [_parse_splits_file] returns are, row by
    row, the name field ([None] for a row short of it) and the integers
    denoted by the start and end fields; nothing else is required of
    them. *)
Theorem parse_splits_file_chapters {Page} (fs : filesystem Page)
    (filename : string) (records : list (list string))
    (chapters : list Chapter) :
  fs !! filename = Some (CsvFile records) ->
  plain_records records ->
  (_parse_splits_file filename fs = (inr chapters, fs)
   <-> Forall2 row_chapter (dict_reader records) chapters).
Proof.
  intros Hfile _.
  rewrite (parse_splits_file_run fs filename records Hfile).
  rewrite <- parse_rows_chapters. split.
  - intros H. injection H as ->. reflexivity.
  - intros ->. reflexivity.
Qed.

Lemma parse_splits_file_chapters_witness :
  let fs : filesystem nat :=
    folder "/docs" {[ "/docs/chapters.csv"%string := CsvFile unordered_records ]} in
  _parse_splits_file "chapters.csv" fs
  = (inr [mkChapter (Some "a"%string) 5 2], fs).
Proof.
  intros fs.
  apply (parse_splits_file_chapters fs "chapters.csv" unordered_records
           [mkChapter (Some "a"%string) 5 2]).
  - reflexivity.
  - repeat constructor.
  - constructor; [|constructor].
    split; [reflexivity|]. split; eexists; split; reflexivity.
Defined.

(** ** reorder.py: the command line *)

Section ReorderFacts.

Context {Page : Type}.
Implicit Types (fs : filesystem Page).

(** A missing input is rejected. *)
Lemma reorder_main_input_missing fs filename output :
  path_exists fs filename = false ->
  reorder_main filename output fs
  = SystemExit (-1)
      (String.append "Input file " (String.append filename " does not exist")) fs.
Proof. intros H. unfold reorder_main. rewrite H. reflexivity. Qed.

(** An output that exists and is not the input is rejected. *)
Lemma reorder_main_output_exists fs filename output :
  path_exists fs filename = true ->
  path_exists fs output = true ->
  filename <> output ->
  reorder_main filename output fs
  = SystemExit (-1)
      (String.append "Output file " (String.append output " already exists")) fs.
Proof.
  intros Hin Hout Hne. unfold reorder_main. rewrite Hin, Hout.
  apply String.eqb_neq in Hne. rewrite Hne. reflexivity.
Qed.

(** With the output path equal to the input path the checks of the command
    line let the run through, and the second assertion of [reorder] stops
    it: nothing is written. *)
Lemma reorder_main_same_path fs filename :
  path_exists fs filename = true ->
  reorder_main filename filename fs = Uncaught AssertionError fs.
Proof.
  intros Hin. unfold reorder_main. rewrite Hin, String.eqb_refl.
  cbn [negb andb].
  unfold run, reorder, io_bind, os_path_exists, lift. rewrite Hin.
  reflexivity.
Qed.

(** The two ways a call of [reorder] can end: with an exception and the
    file system as it was, or with the reordered document written to a
    place where nothing was. *)
Lemma reorder_cases fs input output :
  (exists e, reorder input output fs = (inl e, fs))
  \/ (exists doc R pages place,
        fs !! input = Some (PdfFile doc)
        /\ locate fs output = Some place
        /\ files fs !! place = None
        /\ Z.even (Z.of_nat (length doc)) = true
        /\ _make_sequence (Z.of_nat (length doc)) = inr R
        /\ select_pages doc R = inr pages
        /\ reorder input output fs = (inr tt, store place (PdfFile pages) fs)).
Proof.
  destruct (reorder input output fs) as [r fs'] eqn:Hrun.
  unfold reorder, io_bind, os_path_exists, lift in Hrun.
  destruct (path_exists fs input) eqn:Ein; cbn [py_assert ret] in Hrun;
    [|injection Hrun as <- <-; left; eexists; reflexivity].
  destruct (path_exists fs output) eqn:Eout; cbn [negb py_assert ret] in Hrun;
    [injection Hrun as <- <-; left; eexists; reflexivity|].
  apply path_exists_false_inv in Eout.
  destruct (read_pdf_cases fs input) as [[e He]|(doc & Hdoc & Hread)].
  { rewrite He in Hrun. injection Hrun as <- <-. left. eexists. reflexivity. }
  rewrite Hread in Hrun.
  destruct (Z.even (Z.of_nat (length doc))) eqn:Heven.
  2:{ rewrite (make_sequence_not_even _ Heven) in Hrun.
      injection Hrun as <- <-. left. eexists. reflexivity. }
  destruct (make_sequence_range _ (Nat2Z.is_nonneg (length doc)) Heven)
    as (R & HR & _ & HP).
  destruct (select_pages_Permutation doc R HP) as (pages & Hpages & _).
  rewrite HR, Hpages in Hrun.
  destruct (write_pdf_cases fs output pages) as [[e He]|(place & Hp & Hd & Hw)].
  { rewrite He in Hrun. injection Hrun as <- <-. left. eexists. reflexivity. }
  rewrite Hw in Hrun. injection Hrun as <- <-.
  right. exists doc, R, pages, place.
  rewrite (lookup_located _ _ _ Hp) in Eout. auto 10.
Qed.

Lemma reorder_succeeds fs input output doc place :
  fs !! input = Some (PdfFile doc) ->
  locate fs output = Some place ->
  files fs !! place = None ->
  Z.even (Z.of_nat (length doc)) = true ->
  exists R pages,
    _make_sequence (Z.of_nat (length doc)) = inr R
    /\ select_pages doc R = inr pages
    /\ reorder input output fs = (inr tt, store place (PdfFile pages) fs).
Proof.
  intros Hin Hp Hfree Heven.
  destruct (make_sequence_range _ (Nat2Z.is_nonneg (length doc)) Heven)
    as (R & HR & _ & HP).
  destruct (select_pages_Permutation doc R HP) as (pages & Hpages & _).
  exists R, pages. split; [exact HR|]. split; [exact Hpages|].
  unfold reorder, io_bind, os_path_exists, lift.
  rewrite path_exists_true by (rewrite Hin; eexists; reflexivity).
  rewrite path_exists_false by (rewrite (lookup_located _ _ _ Hp); exact Hfree).
  cbn [negb py_assert ret]. rewrite (read_pdf_ok _ _ _ Hin).
  rewrite HR, Hpages.
  apply write_pdf_ok; [exact Hp | rewrite Hfree; discriminate].
Qed.

End ReorderFacts.

(** C6. When the output path equals the (existing) input path, the command
    line of reorder.py does not proceed to write the reordered document:
    the run dies of the assertion in [reorder] that the output path does
    not exist, and the file is left as it was. *)
Theorem reorder_in_place_aborts :
  let fs : filesystem nat :=
    folder "/home" {[ "/home/doc.pdf"%string := PdfFile [1; 2; 3; 4]%nat ]} in
  reorder_main "doc.pdf" "doc.pdf" fs = Uncaught AssertionError fs.
Proof. apply reorder_main_same_path. reflexivity. Qed.

(** ** merge.py: expanding the inputs *)

Section ExpandFacts.

Context {Page : Type}.
Variable fs : filesystem Page.
Variable glob : string -> list string.
Variable path_glob : string -> string -> list string.

(** Arguments that name neither a file nor a directory expand to what
    [glob] returns for them, in order. *)
Lemma expand_loop_patterns filenames : forall acc,
  Forall (fun f => isfile fs f = false /\ isdir fs f = false) filenames ->
  expand_loop fs glob path_glob acc filenames
  = inr (acc ++ concat (glob <$> filenames)).
Proof.
  induction filenames as [|f rest IH]; intros acc Hall.
  - simpl. rewrite app_nil_r. reflexivity.
  - apply Forall_cons in Hall as [[Hf Hd] Hall].
    cbn [expand_loop]. unfold expand_step.
    rewrite Hf, Hd. simpl. rewrite IH by exact Hall.
    rewrite app_assoc. reflexivity.
Qed.

(** An argument that names an existing file or directory makes the
    expansion raise [TypeError]. *)
Lemma expand_loop_existing filenames : forall acc f,
  f ∈ filenames ->
  isfile fs f = true \/ isdir fs f = true ->
  expand_loop fs glob path_glob acc filenames = inl TypeError.
Proof.
  induction filenames as [|g rest IH]; intros acc f Hin Hf.
  - inversion Hin.
  - cbn [expand_loop]. unfold expand_step.
    destruct (isfile fs g) eqn:Eg; [reflexivity|].
    destruct (isdir fs g) eqn:Ed; [reflexivity|].
    simpl. apply elem_of_cons in Hin as [->|Hin].
    + destruct Hf; congruence.
    + apply (IH _ f); assumption.
Qed.

End ExpandFacts.

(** C5. [_expand_files] on an argument that names an existing plain file
    does not resolve it to itself, and on an argument that names an existing
    directory does not expand it to the files it contains: both raise
    [TypeError], whatever the pattern matchers return. *)
Theorem expand_files_existing_raises :
  let fs : filesystem nat :=
    folder "/home"
      {[ "/home/a.pdf"%string := PdfFile [1; 2]%nat;
         "/home/scans"%string := Directory;
         "/home/scans/b.pdf"%string := PdfFile [3; 4]%nat ]} in
  forall (glob : string -> list string)
         (path_glob : string -> string -> list string),
    _expand_files fs glob path_glob ["a.pdf"%string] = inl TypeError
    /\ _expand_files fs glob path_glob ["scans"%string] = inl TypeError.
Proof.
  intros fs glob path_glob. split.
  - apply (expand_loop_existing fs glob path_glob _ [] "a.pdf"%string);
      [left | left; reflexivity].
  - apply (expand_loop_existing fs glob path_glob _ [] "scans"%string);
      [left | right; reflexivity].
Qed.

(** ** merge.py: concatenation *)

(** A slice that starts at or past the end is empty. *)
Lemma slice_from_short {A} (l : list A) (k : Z) :
  Z.of_nat (length l) <= k -> Py.slice_from k l = [].
Proof.
  intros Hk. unfold Py.slice_from, Py.clamp.
  destruct (Z.ltb_spec k 0); [lia|].
  apply drop_ge. lia.
Qed.

Lemma merge_pages_short {Page} (source : list Page) (k : Z) :
  Z.of_nat (length source) <= k -> merge_pages (Some k) source = [].
Proof.
  intros Hk. unfold merge_pages.
  destruct (Z.eqb_spec k 0) as [->|Hne]; simpl.
  - destruct source; [reflexivity | simpl in Hk; lia].
  - apply slice_from_short, Hk.
Qed.

Lemma merge_pages_zero {Page} (source : list Page) :
  merge_pages (Some 0) source = merge_pages None source.
Proof. reflexivity. Qed.

Section MergeFacts.

Context {Page : Type}.
Implicit Types (fs : filesystem Page) (docs : list (list Page)).

Lemma merge_loop_zero filenames : forall merged fs,
  merge_loop merged filenames (Some 0) fs = merge_loop merged filenames None fs.
Proof.
  induction filenames as [|f rest IH]; intros merged fs; [reflexivity|].
  cbn [merge_loop]. unfold io_bind.
  destruct (read_pdf f fs) as [[e|source] fs']; [reflexivity|].
  rewrite merge_pages_zero. apply IH.
Qed.

Lemma merge_loop_sources fs skip_front filenames : forall docs merged,
  sources fs filenames docs ->
  merge_loop merged filenames skip_front fs
  = (inr (merged ++ concat (merge_pages skip_front <$> docs)), fs).
Proof.
  induction filenames as [|f rest IH]; intros docs merged Hsrc.
  - inversion Hsrc; subst. simpl. rewrite app_nil_r. reflexivity.
  - inversion Hsrc as [|f' d rest' docs' Hf Hrest]; subst.
    cbn [merge_loop]. unfold io_bind. rewrite (read_pdf_ok _ _ _ Hf).
    rewrite (IH docs') by exact Hrest.
    rewrite fmap_cons. simpl. rewrite app_assoc. reflexivity.
Qed.

(** Merging PDF sources into a path that leads to a place where no
    directory is completes and puts there their contributions one after
    the other. *)
Lemma merge_sources fs output skip_front filenames docs place :
  sources fs filenames docs ->
  locate fs output = Some place ->
  files fs !! place <> Some Directory ->
  merge output filenames skip_front fs
  = (inr tt,
     store place (PdfFile (concat (merge_pages skip_front <$> docs))) fs).
Proof.
  intros Hsrc Hp Hd. unfold merge, io_bind.
  rewrite (merge_loop_sources fs skip_front filenames docs []) by exact Hsrc.
  simpl. apply write_pdf_ok; assumption.
Qed.

Lemma sources_app fs pre post docs_pre docs_post :
  sources fs pre docs_pre -> sources fs post docs_post ->
  sources fs (pre ++ post) (docs_pre ++ docs_post).
Proof. apply Forall2_app. Qed.

End MergeFacts.

(** C10. A source with no more pages than [skip_front] adds no page to the
    merged document and the merge still completes; [skip_front = 0] behaves
    as [skip_front] left out, in which case every page of every source is
    kept.  The sources are PDF files and the output path can be created (it
    leads to a place where nothing is). *)
Theorem merge_skip_front :
  (forall (Page : Type) (fs : filesystem Page) (output : string)
          (pre post : list string) (f : string)
          (docs_pre docs_post : list (list Page)) (d : list Page) (k : Z)
          (place : string),
     sources fs pre docs_pre ->
     fs !! f = Some (PdfFile d) ->
     sources fs post docs_post ->
     locate fs output = Some place ->
     files fs !! place = None ->
     Z.of_nat (length d) <= k ->
     merge output (pre ++ f :: post) (Some k) fs
     = (inr tt,
        store place
          (PdfFile (concat (merge_pages (Some k) <$> docs_pre)
                    ++ concat (merge_pages (Some k) <$> docs_post))) fs))
  /\ (forall (Page : Type) (fs : filesystem Page) (output : string)
             (filenames : list string),
        merge output filenames (Some 0) fs = merge output filenames None fs)
  /\ (forall (Page : Type) (fs : filesystem Page) (output : string)
             (filenames : list string) (docs : list (list Page))
             (place : string),
        sources fs filenames docs ->
        locate fs output = Some place ->
        files fs !! place = None ->
        merge output filenames None fs
        = (inr tt, store place (PdfFile (concat docs)) fs)).
Proof.
  split; [|split].
  - intros Page fs output pre post f docs_pre docs_post d k place
      Hpre Hf Hpost Hp Hfree Hk.
    rewrite (merge_sources fs output (Some k) (pre ++ f :: post)
               (docs_pre ++ d :: docs_post) place);
      [| |exact Hp|rewrite Hfree; discriminate].
    + rewrite fmap_app, fmap_cons, concat_app. cbn [concat].
      rewrite (merge_pages_short d k Hk). reflexivity.
    + apply sources_app; [exact Hpre|]. constructor; assumption.
  - intros Page fs output filenames. unfold merge, io_bind.
    rewrite merge_loop_zero. reflexivity.
  - intros Page fs output filenames docs place Hsrc Hp Hfree.
    rewrite (merge_sources fs output None filenames docs place Hsrc Hp)
      by (rewrite Hfree; discriminate).
    do 4 f_equal. unfold merge_pages. apply list_fmap_id.
Qed.

Lemma merge_skip_front_witness :
  let fs : filesystem nat :=
    folder "/home"
      {[ "/home/a.pdf"%string := PdfFile [1; 2; 3]%nat;
         "/home/b.pdf"%string := PdfFile [4; 5]%nat;
         "/home/c.pdf"%string := PdfFile [6; 7; 8; 9]%nat ]} in
  merge "out.pdf" (["a.pdf"%string] ++ "b.pdf"%string :: ["c.pdf"%string])
    (Some 2) fs
  = (inr tt, store "/home/out.pdf" (PdfFile ([3] ++ [8; 9])%nat) fs).
Proof.
  intros fs.
  apply (proj1 merge_skip_front nat fs "out.pdf"%string
           ["a.pdf"%string] ["c.pdf"%string] "b.pdf"%string
           [[1; 2; 3]%nat] [[6; 7; 8; 9]%nat] [4; 5]%nat 2 "/home/out.pdf"%string).
  - constructor; [reflexivity | constructor].
  - reflexivity.
  - constructor; [reflexivity | constructor].
  - reflexivity.
  - reflexivity.
  - simpl. lia.
Defined.

(** * Further properties of the scripts *)

(** ** reorder.py: the transform beyond its intended inputs *)

(** X1. For every even [n <= 0], negative ones included, [_make_sequence n]
    raises nothing and returns the empty sequence. *)
Theorem make_sequence_nonpositive (n : Z) :
  n <= 0 -> Z.even n = true -> _make_sequence n = inr [].
Proof.
  intros Hn Heven. unfold _make_sequence, Py.range.
  rewrite (even_mod n Heven). cbn [Z.eqb py_assert bind ret].
  rewrite seqZ_nil by lia. reflexivity.
Qed.

Lemma make_sequence_nonpositive_witness : _make_sequence (-6) = inr [].
Proof. apply (make_sequence_nonpositive (-6)); [lia | reflexivity]. Defined.

(** ** reorder.py: what reordering does to a document *)

Section Scanned.

Context {A : Type}.
Implicit Types l a b : list A.

Lemma fronts_backs_interleave (m : nat) : forall l,
  length l = (2 * m)%nat ->
  length (fronts l) = m /\ length (backs l) = m
  /\ interleave (fronts l) (backs l) = l.
Proof.
  induction m as [|m IH]; intros l Hl.
  - destruct l; [repeat split; reflexivity | discriminate].
  - destruct l as [|x [|y l']]; simpl in Hl; try lia.
    destruct (IH l' ltac:(lia)) as (Hf & Hb & Hi).
    simpl. rewrite Hf, Hb, Hi. repeat split; reflexivity.
Qed.

(** Reading [a ++ reverse b] in the order of the transform alternates [a]
    and [b]. *)
Lemma select_pages_halves a b :
  length b = length a ->
  select_pages (a ++ reverse b)
    (interleave (front (length a)) (back (length a)))
  = inr (interleave a b).
Proof.
  intros Hb. set (m := length a) in *.
  assert (Hlen : length (a ++ reverse b) = (2 * m)%nat).
  { rewrite length_app, length_reverse. lia. }
  assert (HlenR : length (interleave (front m) (back m)) = (2 * m)%nat).
  { rewrite length_interleave by (rewrite length_back, length_front; lia).
    rewrite length_front. lia. }
  destruct (select_pages_spec (a ++ reverse b)
              (interleave (front m) (back m))) as (out & Hout & Hlo & Hat).
  { intros i Hi. rewrite interleave_halves_Permutation in Hi.
    apply elem_of_range in Hi. lia. }
  rewrite Hout. f_equal. apply list_eq. intros j.
  destruct (decide (j < 2 * m)%nat) as [Hj|Hj].
  - destruct (Nat.Even_or_Odd j) as [[k ->]|[k ->]].
    + destruct (interleave_halves_lookup m k ltac:(lia)) as [He _].
      rewrite (Hat _ _ He), Nat2Z.id.
      rewrite interleave_lookup_even by exact Hb.
      apply lookup_app_l. lia.
    + destruct (interleave_halves_lookup m k ltac:(lia)) as [_ Ho].
      rewrite (Hat _ _ Ho).
      rewrite interleave_lookup_odd by exact Hb.
      rewrite lookup_app_r by lia.
      rewrite reverse_lookup by lia. f_equal. lia.
  - rewrite (proj2 (lookup_ge_None out j)) by lia.
    symmetry. apply lookup_ge_None.
    rewrite length_interleave by exact Hb. lia.
Qed.

End Scanned.

(** X2. Reordering undoes a two-pass scan: when the document holds the
    fronts of an even number of pages in order, followed by the backs from
    last to first, reading it in the order [_make_sequence] gives puts the
    pages back in their original order. *)
Theorem reorder_restores_scanned {Page} (original : list Page) :
  Z.even (Z.of_nat (length original)) = true ->
  exists R : list Z,
    _make_sequence (Z.of_nat (length original)) = inr R
    /\ length (scanned original) = length original
    /\ select_pages (scanned original) R = inr original.
Proof.
  intros Heven.
  set (n := Z.of_nat (length original)) in *.
  pose proof (even_cases n (even_mod n Heven) ltac:(lia)) as En.
  set (m := Z.to_nat (n / 2)) in *.
  destruct (fronts_backs_interleave m original ltac:(lia)) as (Hf & Hb & Hi).
  exists (interleave (front m) (back m)). split; [|split].
  - apply make_sequence_even; [lia | exact Heven].
  - unfold scanned. rewrite length_app, length_reverse. lia.
  - unfold scanned. rewrite <- Hf.
    rewrite select_pages_halves by lia. rewrite Hi. reflexivity.
Qed.

Lemma reorder_restores_scanned_witness :
  exists R : list Z,
    _make_sequence (Z.of_nat (length [1; 2; 3; 4; 5; 6]%nat)) = inr R
    /\ length (scanned [1; 2; 3; 4; 5; 6]%nat) = length [1; 2; 3; 4; 5; 6]%nat
    /\ select_pages (scanned [1; 2; 3; 4; 5; 6]%nat) R = inr [1; 2; 3; 4; 5; 6]%nat.
Proof.
  apply (reorder_restores_scanned [1; 2; 3; 4; 5; 6]%nat). reflexivity.
Defined.

(** ** reorder.py: runs *)

(** X3. [reorder] on a PDF of even page count and an output path that can be
    created (it leads to a place where nothing is) puts at that place a
    rearrangement of the input's pages, with input page [k] at position
    [2k] and input page [n-1-k] at position [2k+1]; nothing else
    changes. *)
Theorem reorder_book_order {Page} (fs : filesystem Page)
    (input output : string) (doc : list Page) (place : string) :
  fs !! input = Some (PdfFile doc) ->
  locate fs output = Some place ->
  files fs !! place = None ->
  Z.even (Z.of_nat (length doc)) = true ->
  exists pages : list Page,
    reorder input output fs = (inr tt, store place (PdfFile pages) fs)
    /\ pages ≡ₚ doc
    /\ forall k : nat, (2 * k < length doc)%nat ->
         pages !! (2 * k)%nat = doc !! k
         /\ pages !! (2 * k + 1)%nat = doc !! (length doc - 1 - k)%nat.
Proof.
  intros Hin Hp Hfree Heven.
  destruct (reorder_succeeds fs input output doc place Hin Hp Hfree Heven)
    as (R & pages & HR & Hpages & Hrun).
  exists pages. split; [exact Hrun|].
  destruct (make_sequence_range _ (Nat2Z.is_nonneg (length doc)) Heven)
    as (R1 & HR1 & _ & HP).
  rewrite HR in HR1. injection HR1 as <-.
  destruct (select_pages_Permutation doc R HP) as (out & Hout' & Hperm).
  rewrite Hpages in Hout'. injection Hout' as <-.
  split; [exact Hperm|].
  intros k Hk.
  destruct (make_sequence_entries _ (Nat2Z.is_nonneg (length doc)) Heven)
    as (R2 & HR2 & _ & Hshape).
  rewrite HR in HR2. injection HR2 as <-.
  destruct (select_pages_spec doc R) as (out & Hout' & _ & Hat).
  { intros i Hi. rewrite HP in Hi. apply elem_of_range in Hi. lia. }
  rewrite Hpages in Hout'. injection Hout' as <-.
  pose proof (even_cases _ (even_mod _ Heven) (Nat2Z.is_nonneg (length doc))) as En.
  destruct (Hshape (Z.of_nat k) ltac:(lia)) as [He Ho].
  replace (Z.to_nat (2 * Z.of_nat k)) with (2 * k)%nat in He by lia.
  replace (Z.to_nat (2 * Z.of_nat k + 1)) with (2 * k + 1)%nat in Ho by lia.
  rewrite (Hat _ _ He), (Hat _ _ Ho). split; f_equal; lia.
Qed.

Lemma reorder_book_order_witness :
  let fs : filesystem nat :=
    folder "/home" {[ "/home/in.pdf"%string := PdfFile [1; 2; 3; 4]%nat ]} in
  exists pages : list nat,
    reorder "in.pdf" "out.pdf" fs
    = (inr tt, store "/home/out.pdf" (PdfFile pages) fs)
    /\ pages ≡ₚ [1; 2; 3; 4]%nat
    /\ forall k : nat, (2 * k < length [1; 2; 3; 4]%nat)%nat ->
         pages !! (2 * k)%nat = [1; 2; 3; 4]%nat !! k
         /\ pages !! (2 * k + 1)%nat
            = [1; 2; 3; 4]%nat !! (length [1; 2; 3; 4]%nat - 1 - k)%nat.
Proof.
  intros fs.
  apply (reorder_book_order fs "in.pdf" "out.pdf" [1; 2; 3; 4]%nat
           "/home/out.pdf"); reflexivity.
Defined.

(** X4. [reorder] on a PDF with an odd number of pages raises
    [AssertionError], whatever the output path, and writes nothing. *)
Theorem reorder_odd_pages {Page} (fs : filesystem Page)
    (input output : string) (doc : list Page) :
  fs !! input = Some (PdfFile doc) ->
  Z.odd (Z.of_nat (length doc)) = true ->
  reorder input output fs = (inl AssertionError, fs).
Proof.
  intros Hin Hodd.
  assert (Heven : Z.even (Z.of_nat (length doc)) = false).
  { rewrite <- Z.negb_odd, Hodd. reflexivity. }
  unfold reorder, io_bind, os_path_exists, lift.
  rewrite path_exists_true by (rewrite Hin; eexists; reflexivity).
  cbn [py_assert ret].
  destruct (path_exists fs output); cbn [negb py_assert ret]; [reflexivity|].
  rewrite (read_pdf_ok _ _ _ Hin).
  rewrite (make_sequence_not_even _ Heven). reflexivity.
Qed.

Lemma reorder_odd_pages_witness :
  let fs : filesystem nat :=
    folder "/home" {[ "/home/in.pdf"%string := PdfFile [1; 2; 3]%nat ]} in
  reorder "in.pdf" "out.pdf" fs = (inl AssertionError, fs).
Proof.
  intros fs.
  apply (reorder_odd_pages fs "in.pdf" "out.pdf" [1; 2; 3]%nat); reflexivity.
Defined.

Lemma reorder_main_cases {Page} (fs : filesystem Page) (filename output : string) :
  (exists fs', reorder_main filename output fs = Completed fs'
               /\ fs' = snd (reorder filename output fs)
               /\ fst (reorder filename output fs) = inr tt)
  \/ (outcome_fs (reorder_main filename output fs) = fs
      /\ forall fs', reorder_main filename output fs <> Completed fs').
Proof.
  unfold reorder_main.
  destruct (negb (path_exists fs filename)); [right; split; [reflexivity|discriminate]|].
  destruct (path_exists fs output && negb (String.eqb filename output))%bool;
    [right; split; [reflexivity|discriminate]|].
  unfold run.
  destruct (reorder_cases fs filename output) as [[e He]|Hok].
  - right. rewrite He. split; [reflexivity|discriminate].
  - destruct Hok as (doc & R & pages & place & _ & _ & _ & _ & _ & _ & Hrun).
    left. rewrite Hrun. eexists. split; [reflexivity|]. split; reflexivity.
Qed.

(** X5. [reorder], called directly or from the command line, never changes
    or removes a file that exists: the file system it leaves agrees with the
    one it found on every path that named something, and is the same
    altogether when the call raises. *)
Theorem reorder_keeps_existing {Page} (fs : filesystem Page)
    (filename output : string) :
  (forall p : string, is_Some (fs !! p) ->
     snd (reorder filename output fs) !! p = fs !! p
     /\ outcome_fs (reorder_main filename output fs) !! p = fs !! p)
  /\ (forall e : exn, fst (reorder filename output fs) = inl e ->
        snd (reorder filename output fs) = fs).
Proof.
  assert (Hfun : forall p, is_Some (fs !! p) ->
            snd (reorder filename output fs) !! p = fs !! p).
  { intros p Hp.
    destruct (reorder_cases fs filename output) as [[e He]|Hok].
    - rewrite He. reflexivity.
    - destruct Hok as (doc & R & pages & place & _ & Hplace & Hfree & _ & _ & _ & Hrun).
      rewrite Hrun. simpl. apply lookup_store_other.
      intros Hsame. rewrite (lookup_located _ _ _ Hsame), Hfree in Hp.
      destruct Hp; discriminate. }
  split.
  - intros p Hp. split; [apply Hfun, Hp|].
    destruct (reorder_main_cases fs filename output)
      as [(fs' & Hmain & -> & _)|[Hsame _]].
    + rewrite Hmain. simpl. apply Hfun, Hp.
    + rewrite Hsame. reflexivity.
  - intros e He.
    destruct (reorder_cases fs filename output) as [[e' He']|Hok].
    + rewrite He'. reflexivity.
    + destruct Hok as (doc & R & pages & place & _ & _ & _ & _ & _ & _ & Hrun).
      rewrite Hrun in He. discriminate.
Qed.

Lemma reorder_keeps_existing_witness :
  let fs : filesystem nat :=
    folder "/home" {[ "/home/in.pdf"%string := PdfFile [1; 2]%nat ]} in
  snd (reorder "in.pdf" "in.pdf" fs) !! "in.pdf"%string = fs !! "in.pdf"%string
  /\ outcome_fs (reorder_main "in.pdf" "in.pdf" fs) !! "in.pdf"%string
     = fs !! "in.pdf"%string.
Proof.
  intros fs.
  apply (proj1 (reorder_keeps_existing fs "in.pdf" "in.pdf") "in.pdf"%string).
  vm_compute. eexists. reflexivity.
Defined.

(** The command line of reorder.py exits with status -1, a message on
    standard error and no change to any file when the input does not exist,
    and when the output exists under a path other than the input's. *)
Lemma reorder_main_rejects {Page} (fs : filesystem Page)
    (filename output : string) :
  (fs !! filename = None ->
   reorder_main filename output fs
   = SystemExit (-1)
       (String.append "Input file " (String.append filename " does not exist")) fs)
  /\ (is_Some (fs !! filename) -> is_Some (fs !! output) -> filename <> output ->
      reorder_main filename output fs
      = SystemExit (-1)
          (String.append "Output file " (String.append output " already exists")) fs).
Proof.
  split.
  - intros Hin. apply reorder_main_input_missing, path_exists_false, Hin.
  - intros Hx Hy Hne.
    apply reorder_main_output_exists; [| |exact Hne]; apply path_exists_true;
      assumption.
Qed.

(** The command line of reorder.py on an even-paged PDF and an output path
    that can be created. *)
Lemma reorder_main_writes {Page} (fs : filesystem Page)
    (filename output : string) (doc : list Page) (place : string) :
  fs !! filename = Some (PdfFile doc) ->
  locate fs output = Some place ->
  files fs !! place = None ->
  Z.even (Z.of_nat (length doc)) = true ->
  exists pages : list Page,
    reorder_main filename output fs
    = Completed (store place (PdfFile pages) fs).
Proof.
  intros Hin Hp Hfree Heven.
  destruct (reorder_succeeds fs filename output doc place Hin Hp Hfree Heven)
    as (R & pages & _ & _ & Hrun).
  exists pages. unfold reorder_main.
  rewrite path_exists_true by (rewrite Hin; eexists; reflexivity).
  rewrite path_exists_false by (rewrite (lookup_located _ _ _ Hp); exact Hfree).
  cbn [negb andb]. unfold run. rewrite Hrun. reflexivity.
Qed.

(** X6. The command line of reorder.py runs to completion exactly when the
    input is a PDF with an even number of pages and the output path can be
    created (it leads to a place where nothing is); in particular never
    when output and input are the same path. *)
Theorem reorder_main_completes_iff {Page} (fs : filesystem Page)
    (filename output : string) :
  (exists fs', reorder_main filename output fs = Completed fs')
  <-> (exists doc : list Page,
         fs !! filename = Some (PdfFile doc)
         /\ Z.even (Z.of_nat (length doc)) = true
         /\ free_path fs output).
Proof.
  split.
  - intros [fs' Hmain].
    destruct (reorder_main_cases fs filename output)
      as [(fs1 & _ & _ & Hok)|[_ Hnot]]; [|destruct (Hnot fs' Hmain)].
    destruct (reorder_cases fs filename output) as [[e He]|Hcase].
    + rewrite He in Hok. discriminate.
    + destruct Hcase as (doc & R & pages & place & Hin & Hp & Hfree & Heven & _).
      exists doc. split; [exact Hin|]. split; [exact Heven|].
      exists place. auto.
  - intros (doc & Hin & Heven & place & Hp & Hfree).
    destruct (reorder_main_writes fs filename output doc place Hin Hp Hfree Heven)
      as (pages & Hmain).
    eexists. exact Hmain.
Qed.

Lemma reorder_main_completes_iff_witness :
  let fs : filesystem nat :=
    folder "/home" {[ "/home/in.pdf"%string := PdfFile [1; 2]%nat ]} in
  exists fs', reorder_main "in.pdf" "out.pdf" fs = Completed fs'.
Proof.
  intros fs.
  apply (proj2 (reorder_main_completes_iff fs "in.pdf" "out.pdf")).
  exists [1; 2]%nat. split; [reflexivity|]. split; [reflexivity|].
  exists "/home/out.pdf"%string. split; reflexivity.
Defined.

(** ** split.py: lists of chapters, and chapters out of bounds *)

Lemma index_cases {A} (l : list A) (i : Z) :
  Py.index l i = inl IndexError \/ exists x, Py.index l i = inr x.
Proof.
  unfold Py.index.
  destruct (_ <? 0); [left; reflexivity|].
  destruct (l !! _); [right; eexists|left]; reflexivity.
Qed.

Lemma index_past_end {A} (l : list A) (i : Z) :
  Z.of_nat (length l) <= i -> Py.index l i = inl IndexError.
Proof.
  intros Hi. unfold Py.index.
  destruct (Z.ltb_spec i 0); [lia|].
  destruct (Z.ltb_spec i 0); [lia|].
  rewrite (proj2 (lookup_ge_None l (Z.to_nat i))) by lia. reflexivity.
Qed.

(** A loop whose body can only raise [e] raises [e] as soon as one
    element makes it raise. *)
Lemma for_each_raises {A B} (f : A -> result B) (e : exn) (l : list A) :
  (forall x, x ∈ l -> f x = inl e \/ exists y, f x = inr y) ->
  (exists x, x ∈ l /\ f x = inl e) ->
  for_each f l = inl e.
Proof.
  induction l as [|x l IH]; intros Hall (x0 & Hx0 & Hf).
  - inversion Hx0.
  - simpl. destruct (Hall x ltac:(left)) as [Hx|[y Hx]]; rewrite Hx;
      [reflexivity|].
    simpl. rewrite IH; [reflexivity | |].
    + intros z Hz. apply Hall. right. exact Hz.
    + apply elem_of_cons in Hx0 as [->|Hx0]; [congruence|]. eauto.
Qed.

Lemma io_for_app {Page A} (body : A -> io Page unit) (l1 l2 : list A) :
  forall fs : filesystem Page,
  io_for body (l1 ++ l2) fs
  = match io_for body l1 fs with
    | (inr _, fs1) => io_for body l2 fs1
    | (inl e, fs1) => (inl e, fs1)
    end.
Proof.
  induction l1 as [|x l1 IH]; intros fs; [reflexivity|].
  simpl. unfold io_bind. destruct (body x fs) as [[e|[]] fs1]; [reflexivity|].
  apply IH.
Qed.

Section SplitRuns.

Context {Page : Type}.
Implicit Types (fs : filesystem Page) (doc : list Page) (c : Chapter).

(** Putting a document somewhere leaves a chapter writable that was. *)
Lemma chapter_beside_store fs filename directory c place (pages : list Page) :
  chapter_beside fs filename directory c ->
  chapter_beside (store place (PdfFile pages) fs) filename directory c.
Proof.
  intros (out & Hout & (place' & Hp & Hd) & Hother).
  exists out. split; [exact Hout|]. split; [|exact Hother].
  exists place'. split; [exact Hp|]. simpl.
  destruct (decide (place = place')) as [->|Hne].
  - rewrite lookup_insert_eq. discriminate.
  - rewrite lookup_insert_ne by exact Hne. exact Hd.
Qed.

(** The loop of [split] over chapters in bounds, each with a name whose
    path can be opened for writing and is not the input: it completes, each
    file holds the pages of the last chapter written to it, and all other
    paths, the input among them, name what they named. *)
Lemma split_loop_spec filename directory doc chapters : forall fs,
  fs !! filename = Some (PdfFile doc) ->
  Forall (chapter_in_bounds (Z.of_nat (length doc))) chapters ->
  Forall (chapter_beside fs filename directory) chapters ->
  exists fs',
    io_for (split_chapter filename directory) chapters fs = (inr tt, fs')
    /\ fs' !! filename = Some (PdfFile doc)
    /\ (forall pre c post out,
          chapters = pre ++ c :: post ->
          chapter_path directory c = Some out ->
          Forall (fun c' => ~ writes_to fs directory out c') post ->
          fs' !! out = Some (PdfFile (chapter_pages doc c)))
    /\ (forall p,
          Forall (fun c => ~ writes_to fs directory p c) chapters ->
          fs' !! p = fs !! p).
Proof.
  induction chapters as [|c0 rest IH]; intros fs Hin Hvalid Hpaths.
  - exists fs. split; [reflexivity|]. split; [exact Hin|]. split; [|reflexivity].
    intros [|c1 pre'] c post out Heq; discriminate.
  - apply Forall_cons in Hvalid as [Hc Hvalid].
    apply Forall_cons in Hpaths as [Hc0 Hpaths].
    destruct Hc0 as (out0 & Hout0 & (place0 & Hp0 & Hd0) & Hother0).
    unfold chapter_path in Hout0.
    destruct (name c0) as [n0|] eqn:Hn0; [|discriminate].
    simpl in Hout0. injection Hout0 as <-.
    cbn [io_for]. unfold io_bind at 1.
    rewrite (split_chapter_writes fs filename directory doc c0 n0 place0
               Hin Hc Hn0 Hp0 Hd0).
    set (fs1 := store place0 (PdfFile (chapter_pages doc c0)) fs).
    assert (Hin1 : fs1 !! filename = Some (PdfFile doc)).
    { unfold fs1. rewrite lookup_store_other; [exact Hin|].
      intros Hsame. apply Hother0. exists place0. auto. }
    destruct (IH fs1 Hin1 Hvalid) as (fs' & Hrun & Hin' & Hlast & Hframe).
    { eapply Forall_impl; [exact Hpaths|].
      intros c Hc'. apply chapter_beside_store, Hc'. }
    exists fs'. split; [exact Hrun|]. split; [exact Hin'|]. split.
    + intros pre c post out Heq Hout Hfresh. destruct pre as [|c1 pre'].
      * simpl in Heq. injection Heq as <- <-.
        unfold chapter_path in Hout. rewrite Hn0 in Hout. simpl in Hout.
        injection Hout as <-.
        rewrite (Hframe _ Hfresh). unfold fs1. apply lookup_store_same, Hp0.
      * simpl in Heq. injection Heq as <- ->.
        apply (Hlast pre' c post out eq_refl Hout Hfresh).
    + intros p Hp. apply Forall_cons in Hp as [Hp0' Hprest].
      rewrite (Hframe p Hprest). unfold fs1. apply lookup_store_other.
      intros Hsame. apply Hp0'. exists (PyStr.join directory n0).
      split; [unfold chapter_path; rewrite Hn0; reflexivity|].
      exists place0. auto.
Qed.

End SplitRuns.

(** X7. [split] over any list of chapters within the bounds of the document,
    each with a name whose path can be opened for writing and is not the
    input file, completes; afterwards each file holds the pages of the last
    chapter written to it (an earlier chapter written to the same file, and
    whatever was there before, is overwritten), and every path that no
    chapter writes to, the input among them, names what it named. *)
Theorem split_last_chapter_wins {Page} (fs : filesystem Page)
    (filename directory : string) (doc : list Page) (chapters : list Chapter) :
  fs !! filename = Some (PdfFile doc) ->
  Forall (chapter_in_bounds (Z.of_nat (length doc))) chapters ->
  Forall (chapter_beside fs filename directory) chapters ->
  exists fs',
    split filename chapters directory fs = (inr tt, fs')
    /\ fs' !! filename = Some (PdfFile doc)
    /\ (forall pre c post out,
          chapters = pre ++ c :: post ->
          chapter_path directory c = Some out ->
          Forall (fun c' => ~ writes_to fs directory out c') post ->
          fs' !! out = Some (PdfFile (chapter_pages doc c)))
    /\ (forall p,
          Forall (fun c => ~ writes_to fs directory p c) chapters ->
          fs' !! p = fs !! p).
Proof.
  intros Hin Hvalid Hpaths.
  rewrite split_unfold by (rewrite Hin; eexists; reflexivity).
  apply split_loop_spec; assumption.
Qed.

Lemma chapter_beside_intro {Page} (fs : filesystem Page)
    (filename directory : string) (c : Chapter) (n place : string) :
  name c = Some n ->
  locate fs (PyStr.join directory n) = Some place ->
  files fs !! place <> Some Directory ->
  locate fs filename <> Some place ->
  chapter_beside fs filename directory c.
Proof.
  intros Hn Hp Hd Hne.
  exists (PyStr.join directory n).
  split; [unfold chapter_path; rewrite Hn; reflexivity|].
  split.
  - exists place. auto.
  - intros (place' & H1 & H2). congruence.
Qed.

Lemma split_last_chapter_wins_witness :
  let fs : filesystem nat :=
    folder "/d" {[ "/d/book.pdf"%string := PdfFile [1; 2; 3; 4; 5]%nat ]} in
  let chapters :=
    [mkChapter (Some "a"%string) 1 2; mkChapter (Some "b"%string) 3 3;
     mkChapter (Some "/d/a"%string) 4 5] in
  exists fs',
    split "book.pdf" chapters "/d" fs = (inr tt, fs')
    /\ fs' !! "book.pdf"%string = Some (PdfFile [1; 2; 3; 4; 5]%nat)
    /\ (forall pre c post out,
          chapters = pre ++ c :: post ->
          chapter_path "/d" c = Some out ->
          Forall (fun c' => ~ writes_to fs "/d" out c') post ->
          fs' !! out = Some (PdfFile (chapter_pages [1; 2; 3; 4; 5]%nat c)))
    /\ (forall p,
          Forall (fun c => ~ writes_to fs "/d" p c) chapters ->
          fs' !! p = fs !! p).
Proof.
  intros fs chapters.
  apply (split_last_chapter_wins fs "book.pdf" "/d" [1; 2; 3; 4; 5]%nat chapters).
  - reflexivity.
  - repeat constructor; simpl; lia.
  - repeat constructor.
    + apply (chapter_beside_intro _ _ _ _ "a"%string "/d/a"%string);
        [reflexivity | reflexivity | vm_compute; discriminate..].
    + apply (chapter_beside_intro _ _ _ _ "b"%string "/d/b"%string);
        [reflexivity | reflexivity | vm_compute; discriminate..].
    + apply (chapter_beside_intro _ _ _ _ "/d/a"%string "/d/a"%string);
        [reflexivity | reflexivity | vm_compute; discriminate..].
Defined.

(** X8. A chapter whose [stop] is below its [start] is not an error for
    [split]: when its path can be opened for writing and is not the input
    file, a document without pages is put there. *)
Theorem split_empty_chapter {Page} (fs : filesystem Page)
    (filename directory : string) (doc : list Page) (c : Chapter)
    (n place : string) :
  fs !! filename = Some (PdfFile doc) ->
  name c = Some n ->
  stop c < start c ->
  locate fs (PyStr.join directory n) = Some place ->
  files fs !! place <> Some Directory ->
  locate fs filename <> Some place ->
  split filename [c] directory fs
  = (inr tt, store place (PdfFile []) fs).
Proof.
  intros Hin Hn Hc Hp Hd _.
  rewrite split_unfold by (rewrite Hin; eexists; reflexivity).
  cbn [io_for]. unfold io_bind.
  rewrite (split_chapter_run fs filename directory doc c Hin).
  unfold Py.range. rewrite seqZ_nil by lia. cbn [for_each ret]. rewrite Hn.
  rewrite (write_pdf_ok fs _ [] place Hp Hd). reflexivity.
Qed.

Lemma split_empty_chapter_witness :
  let fs : filesystem nat :=
    folder "/d" {[ "/d/book.pdf"%string := PdfFile [1; 2; 3]%nat ]} in
  split "book.pdf" [mkChapter (Some "a"%string) 3 1] "/d" fs
  = (inr tt, store "/d/a" (PdfFile []) fs).
Proof.
  intros fs.
  apply (split_empty_chapter fs "book.pdf" "/d" [1; 2; 3]%nat
           (mkChapter (Some "a"%string) 3 1) "a"%string "/d/a"%string).
  - reflexivity.
  - reflexivity.
  - simpl; lia.
  - reflexivity.
  - vm_compute. discriminate.
  - vm_compute. discriminate.
Defined.

(** X9. [split] stops at the first chapter whose non-empty range ends past
    the last page: it raises [IndexError], the files of the chapters before
    it (in bounds, written beside the input) stay written, and neither that
    chapter nor any later one is written. *)
Theorem split_stops_past_end {Page} (fs : filesystem Page)
    (filename directory : string) (doc : list Page)
    (good : list Chapter) (bad : Chapter) (rest : list Chapter) :
  fs !! filename = Some (PdfFile doc) ->
  Forall (chapter_in_bounds (Z.of_nat (length doc))) good ->
  Forall (chapter_beside fs filename directory) good ->
  start bad <= stop bad ->
  Z.of_nat (length doc) < stop bad ->
  exists fs1,
    split filename good directory fs = (inr tt, fs1)
    /\ split filename (good ++ bad :: rest) directory fs = (inl IndexError, fs1).
Proof.
  intros Hin Hvalid Hpaths Hne Hpast.
  rewrite !split_unfold by (rewrite Hin; eexists; reflexivity).
  destruct (split_loop_spec filename directory doc good fs Hin Hvalid Hpaths)
    as (fs1 & Hrun & Hin1 & _ & _).
  exists fs1. split; [exact Hrun|].
  rewrite io_for_app, Hrun. cbn [io_for]. unfold io_bind.
  rewrite (split_chapter_run fs1 filename directory doc bad Hin1).
  rewrite (for_each_raises (Py.index doc) IndexError); [reflexivity| |].
  - intros i _. apply index_cases.
  - exists (stop bad - 1). split.
    + apply elem_of_range. lia.
    + apply index_past_end. lia.
Qed.

Lemma split_stops_past_end_witness :
  let fs : filesystem nat :=
    folder "/d" {[ "/d/book.pdf"%string := PdfFile [1; 2; 3]%nat ]} in
  exists fs1,
    split "book.pdf" [mkChapter (Some "a"%string) 1 2] "/d" fs = (inr tt, fs1)
    /\ split "book.pdf"
         ([mkChapter (Some "a"%string) 1 2]
          ++ mkChapter (Some "b"%string) 3 4 :: [mkChapter (Some "c"%string) 1 1])
         "/d" fs
       = (inl IndexError, fs1).
Proof.
  intros fs.
  apply (split_stops_past_end fs "book.pdf" "/d" [1; 2; 3]%nat
           [mkChapter (Some "a"%string) 1 2] (mkChapter (Some "b"%string) 3 4)
           [mkChapter (Some "c"%string) 1 1]).
  - reflexivity.
  - repeat constructor; simpl; lia.
  - repeat constructor.
    apply (chapter_beside_intro _ _ _ _ "a"%string "/d/a"%string);
      [reflexivity | reflexivity | vm_compute; discriminate..].
  - simpl; lia.
  - simpl; lia.
Defined.

(** X10. A chapter that starts at 0 does not fail: page number -1 is read
    from the end, so the file (at a path that can be opened for writing and
    is not the input) gets the last page of the document followed by its
    first [stop] pages. *)
Theorem split_start_zero {Page} (fs : filesystem Page)
    (filename directory : string) (doc : list Page) (c : Chapter)
    (last_page : Page) (n place : string) :
  fs !! filename = Some (PdfFile doc) ->
  last doc = Some last_page ->
  name c = Some n ->
  start c = 0 ->
  0 <= stop c <= Z.of_nat (length doc) ->
  locate fs (PyStr.join directory n) = Some place ->
  files fs !! place <> Some Directory ->
  locate fs filename <> Some place ->
  split filename [c] directory fs
  = (inr tt,
     store place (PdfFile (last_page :: take (Z.to_nat (stop c)) doc)) fs).
Proof.
  intros Hin Hlast Hn Hstart Hstop Hp Hd _.
  rewrite split_unfold by (rewrite Hin; eexists; reflexivity).
  cbn [io_for]. unfold io_bind.
  rewrite (split_chapter_run fs filename directory doc c Hin).
  rewrite Hstart. unfold Py.range.
  rewrite seqZ_cons by lia. cbn [for_each].
  assert (Hlen : (0 < length doc)%nat).
  { destruct doc; [discriminate | simpl; lia]. }
  assert (Hidx : Py.index doc (0 - 1) = inr last_page).
  { change (0 - 1) with (-1). unfold Py.index.
    change (-1 <? 0) with true. cbv iota.
    destruct (Z.ltb_spec (Z.of_nat (length doc) + -1) 0) as [Hneg|Hpos]; [lia|].
    replace (Z.to_nat (Z.of_nat (length doc) + -1)) with (Nat.pred (length doc))
      by lia.
    rewrite <- last_lookup, Hlast. reflexivity. }
  rewrite Hidx. cbn [bind].
  replace (seqZ (Z.succ (0 - 1)) (Z.pred (stop c - (0 - 1))))
    with (Py.range 0 (stop c)) by (unfold Py.range; f_equal; lia).
  rewrite read_range by lia.
  cbn [bind ret]. rewrite Z.sub_0_r. cbn [Z.to_nat drop]. rewrite Hn.
  rewrite (write_pdf_ok fs _ _ place Hp Hd). reflexivity.
Qed.

Lemma split_start_zero_witness :
  let fs : filesystem nat :=
    folder "/d" {[ "/d/book.pdf"%string := PdfFile [1; 2; 3; 4]%nat ]} in
  split "book.pdf" [mkChapter (Some "a"%string) 0 2] "/d" fs
  = (inr tt, store "/d/a" (PdfFile [4; 1; 2]%nat) fs).
Proof.
  intros fs.
  apply (split_start_zero fs "book.pdf" "/d" [1; 2; 3; 4]%nat
           (mkChapter (Some "a"%string) 0 2) 4%nat "a"%string "/d/a"%string).
  - reflexivity.
  - reflexivity.
  - reflexivity.
  - reflexivity.
  - simpl; lia.
  - reflexivity.
  - vm_compute. discriminate.
  - vm_compute. discriminate.
Defined.

(** ** split.py: malformed chapter lists *)

Lemma for_each_inl {A B} (f : A -> result B) (l : list A) (e : exn) :
  for_each f l = inl e -> exists x, x ∈ l /\ f x = inl e.
Proof.
  induction l as [|x l IH]; simpl; [discriminate|].
  destruct (f x) as [e'|y] eqn:Ex; simpl.
  - intros H. injection H as <-. exists x. split; [left | exact Ex].
  - destruct (for_each f l) as [e'|ys]; simpl; [|discriminate].
    intros H. injection H as <-.
    destruct (IH eq_refl) as (x' & Hx' & Hf). exists x'. split; [right|]; assumption.
Qed.

Lemma int_error (s : string) (e : exn) : PyStr.int s = inl e -> e = ValueError.
Proof.
  unfold PyStr.int.
  destruct (PyStr.strip _) as [|a cs]; simpl.
  - intros H. injection H as <-. reflexivity.
  - destruct (match a :: cs with
              | "-"%char :: r => (-1, r)
              | "+"%char :: r => (1, r)
              | _ => (1, a :: cs)
              end) as [sign ds].
    destruct (PyStr.digits 0 false ds); [discriminate|].
    intros H. injection H as <-. reflexivity.
Qed.

Lemma py_int_error (x : option string) (e : exn) :
  py_int x = inl e -> e = TypeError \/ e = ValueError.
Proof.
  destruct x as [s|]; simpl.
  - intros H. right. eapply int_error, H.
  - intros H. injection H as <-. left. reflexivity.
Qed.

Lemma parse_row_error (r : row) (e : exn) :
  parse_row r = inl e -> e = KeyError \/ e = TypeError \/ e = ValueError.
Proof.
  unfold parse_row, dict_get.
  destruct (r !! "name"%string); simpl; [|intros H; injection H as <-; auto].
  destruct (r !! "start"%string) as [x1|]; simpl; [|intros H; injection H as <-; auto].
  destruct (py_int x1) as [e1|v1] eqn:E1; simpl.
  { intros H. injection H as <-. right. eapply py_int_error, E1. }
  destruct (r !! "end"%string) as [x2|]; simpl; [|intros H; injection H as <-; auto].
  destruct (py_int x2) as [e2|v2] eqn:E2; simpl; [|discriminate].
  intros H. injection H as <-. right. eapply py_int_error, E2.
Qed.

(** Rows of which one is not well formed make the loop of
    [_parse_splits_file] raise. *)
Lemma parse_rows_bad (rows : list row) (bad : row) :
  bad ∈ rows ->
  (forall c, ~ row_chapter bad c) ->
  exists e,
    (e = KeyError \/ e = TypeError \/ e = ValueError)
    /\ for_each parse_row rows = inl e.
Proof.
  intros Hbad Hno.
  destruct (for_each parse_row rows) as [e|chapters] eqn:E.
  - exists e. split; [|reflexivity].
    destruct (for_each_inl _ _ _ E) as (r & _ & Hr).
    eapply parse_row_error, Hr.
  - apply for_each_inr in E.
    apply list_elem_of_lookup in Hbad as [i Hi].
    destruct (Forall2_lookup_l _ _ _ _ _ E Hi) as (c & _ & Hc).
    apply parse_row_chapter in Hc. destruct (Hno c Hc).
Qed.

(** X11. On a chapter list of plain fields, one malformed row anywhere (a
    missing [name], [start] or [end] column, a row short of its [start] or
    [end] field, or a [start] or [end] that is not an integer) makes
    [_parse_splits_file] raise [KeyError], [TypeError] or [ValueError]: it
    returns no chapter at all, not the well-formed ones. *)
Theorem parse_splits_file_bad_row {Page} (fs : filesystem Page)
    (filename : string) (records : list (list string)) (bad : row) :
  fs !! filename = Some (CsvFile records) ->
  plain_records records ->
  bad ∈ dict_reader records ->
  (forall c, ~ row_chapter bad c) ->
  exists e,
    (e = KeyError \/ e = TypeError \/ e = ValueError)
    /\ _parse_splits_file filename fs = (inl e, fs).
Proof.
  intros Hfile _ Hbad Hno.
  destruct (parse_rows_bad _ bad Hbad Hno) as (e & Hkind & He).
  exists e. split; [exact Hkind|].
  rewrite (parse_splits_file_run fs filename records Hfile), He. reflexivity.
Qed.

(** The row of [short_records] that is short of its [end] field. *)
Lemma short_row_no_chapter :
  forall c, ~ row_chapter (make_row ["name"; "start"; "end"]%string
                             ["b"; "3"]%string) c.
Proof.
  intros c (_ & _ & (s & Hs & _)). vm_compute in Hs. discriminate.
Qed.

Lemma parse_splits_file_bad_row_witness :
  let fs : filesystem nat :=
    folder "/d" {[ "/d/chapters.csv"%string := CsvFile short_records ]} in
  exists e,
    (e = KeyError \/ e = TypeError \/ e = ValueError)
    /\ _parse_splits_file "chapters.csv" fs = (inl e, fs).
Proof.
  intros fs.
  apply (parse_splits_file_bad_row fs "chapters.csv" short_records
           (make_row ["name"; "start"; "end"]%string ["b"; "3"]%string)).
  - reflexivity.
  - repeat constructor.
  - right. left.
  - exact short_row_no_chapter.
Defined.

(** ** split.py: the command line *)

Section SplitMainRuns.

Context {Page : Type}.
Variable parent_absolute : string -> string.
Implicit Types (fs : filesystem Page).

Lemma split_main_unfold fs filename chapters :
  is_Some (fs !! filename) -> is_Some (fs !! chapters) ->
  split_main parent_absolute filename chapters fs
  = run (do! _chapters := _parse_splits_file chapters in
         split filename _chapters (parent_absolute filename)) fs.
Proof.
  intros Hx Hy. unfold split_main.
  rewrite (path_exists_true _ _ Hx), (path_exists_true _ _ Hy). reflexivity.
Qed.

End SplitMainRuns.

(** The command line of split.py exits with status -1 and changes no
    file when the input does not exist, and when the chapter list does not
    exist; in the second case the message on standard error says that the
    chapter file "already exists". *)
Lemma split_main_rejects {Page} (parent_absolute : string -> string)
    (fs : filesystem Page) (filename chapters : string) :
  (fs !! filename = None ->
   split_main parent_absolute filename chapters fs
   = SystemExit (-1)
       (String.append "Input file " (String.append filename " does not exist")) fs)
  /\ (is_Some (fs !! filename) -> fs !! chapters = None ->
      split_main parent_absolute filename chapters fs
      = SystemExit (-1)
          (String.append "Chapter file "
             (String.append chapters " already exists")) fs).
Proof.
  unfold split_main. split.
  - intros H. rewrite (path_exists_false _ _ H). reflexivity.
  - intros Hx Hy.
    rewrite (path_exists_true _ _ Hx), (path_exists_false _ _ Hy). reflexivity.
Qed.

(** X12. With one malformed row in a chapter list of plain fields, a run of
    split.py dies of [KeyError], [TypeError] or [ValueError] before it
    writes anything: the chapters of the well-formed rows are not written
    either. *)
Theorem split_main_bad_row {Page} (parent_absolute : string -> string)
    (fs : filesystem Page) (filename chapters : string)
    (records : list (list string)) (bad : row) :
  is_Some (fs !! filename) ->
  fs !! chapters = Some (CsvFile records) ->
  plain_records records ->
  bad ∈ dict_reader records ->
  (forall c, ~ row_chapter bad c) ->
  exists e,
    (e = KeyError \/ e = TypeError \/ e = ValueError)
    /\ split_main parent_absolute filename chapters fs = Uncaught e fs.
Proof.
  intros Hin Hfile _ Hbad Hno.
  destruct (parse_rows_bad _ bad Hbad Hno) as (e & Hkind & He).
  exists e. split; [exact Hkind|].
  rewrite split_main_unfold by (try rewrite Hfile; eauto).
  unfold run, io_bind at 1.
  rewrite (parse_splits_file_run fs chapters records Hfile), He. reflexivity.
Qed.

Lemma split_main_bad_row_witness :
  let fs : filesystem nat :=
    folder "/d"
      {[ "/d/book.pdf"%string := PdfFile [1; 2; 3]%nat;
         "/d/chapters.csv"%string := CsvFile short_records ]} in
  exists e,
    (e = KeyError \/ e = TypeError \/ e = ValueError)
    /\ split_main (fun _ => "/d"%string) "book.pdf" "chapters.csv" fs
       = Uncaught e fs.
Proof.
  intros fs.
  apply (split_main_bad_row (fun _ => "/d"%string) fs "book.pdf" "chapters.csv"
           short_records
           (make_row ["name"; "start"; "end"]%string ["b"; "3"]%string)).
  - vm_compute. eexists. reflexivity.
  - reflexivity.
  - repeat constructor.
  - right. left.
  - exact short_row_no_chapter.
Defined.

(** X13. A run of split.py on a PDF and a chapter list of plain fields whose
    rows are all well formed and within the bounds of the document, each
    with a name whose path in the directory of the input can be opened for
    writing and is not the input file, completes; each file then holds the
    pages of the last row written to it, and every path no row writes to,
    the input among them, names what it named. *)
Theorem split_main_writes {Page} (parent_absolute : string -> string)
    (fs : filesystem Page) (filename chapters : string)
    (doc : list Page) (records : list (list string)) (parsed : list Chapter) :
  let directory := parent_absolute filename in
  fs !! filename = Some (PdfFile doc) ->
  fs !! chapters = Some (CsvFile records) ->
  plain_records records ->
  Forall2 row_chapter (dict_reader records) parsed ->
  Forall (chapter_in_bounds (Z.of_nat (length doc))) parsed ->
  Forall (chapter_beside fs filename directory) parsed ->
  exists fs',
    split_main parent_absolute filename chapters fs = Completed fs'
    /\ fs' !! filename = Some (PdfFile doc)
    /\ (forall pre c post out,
          parsed = pre ++ c :: post ->
          chapter_path directory c = Some out ->
          Forall (fun c' => ~ writes_to fs directory out c') post ->
          fs' !! out = Some (PdfFile (chapter_pages doc c)))
    /\ (forall p,
          Forall (fun c => ~ writes_to fs directory p c) parsed ->
          fs' !! p = fs !! p).
Proof.
  intros directory Hin Hfile _ Hrows Hvalid Hpaths.
  rewrite split_main_unfold by (try rewrite Hin; try rewrite Hfile; eauto).
  unfold run, io_bind at 1.
  rewrite (parse_splits_file_run fs chapters records Hfile).
  rewrite (proj2 (parse_rows_chapters _ _) Hrows).
  rewrite split_unfold by (rewrite Hin; eexists; reflexivity).
  destruct (split_loop_spec filename directory doc parsed fs Hin Hvalid Hpaths)
    as (fs' & Hrun & Hin' & Hlast & Hframe).
  fold directory. rewrite Hrun. exists fs'. auto.
Qed.

Lemma split_main_writes_witness :
  let fs : filesystem nat :=
    folder "/d"
      {[ "/d/book.pdf"%string := PdfFile [1; 2; 3]%nat;
         "/d/chapters.csv"%string
           := CsvFile [ ["name"; "start"; "end"]%string; ["a"; "1"; "2"]%string ] ]} in
  let parsed := [mkChapter (Some "a"%string) 1 2] in
  exists fs',
    split_main (fun _ => "/d"%string) "book.pdf" "chapters.csv" fs = Completed fs'
    /\ fs' !! "book.pdf"%string = Some (PdfFile [1; 2; 3]%nat)
    /\ (forall pre c post out,
          parsed = pre ++ c :: post ->
          chapter_path "/d" c = Some out ->
          Forall (fun c' => ~ writes_to fs "/d" out c') post ->
          fs' !! out = Some (PdfFile (chapter_pages [1; 2; 3]%nat c)))
    /\ (forall p,
          Forall (fun c => ~ writes_to fs "/d" p c) parsed ->
          fs' !! p = fs !! p).
Proof.
  intros fs parsed.
  apply (split_main_writes (fun _ => "/d"%string) fs "book.pdf" "chapters.csv"
           [1; 2; 3]%nat
           [ ["name"; "start"; "end"]%string; ["a"; "1"; "2"]%string ] parsed).
  - reflexivity.
  - reflexivity.
  - repeat constructor.
  - constructor; [|constructor].
    split; [reflexivity|]. split; eexists; split; reflexivity.
  - repeat constructor; simpl; lia.
  - repeat constructor.
    apply (chapter_beside_intro _ _ _ _ "a"%string "/d/a"%string);
      [reflexivity | reflexivity | vm_compute; discriminate..].
Defined.

(** ** merge.py: expansion, skipping, and the command line *)

Lemma isfile_isdir_None {Page} (fs : filesystem Page) (f : string) :
  fs !! f = None <-> isfile fs f = false /\ isdir fs f = false.
Proof.
  unfold isfile, isdir. destruct (fs !! f) as [[| |]|]; split;
    try (intros [? ?]); try discriminate; auto.
Qed.

(** X14. [_expand_files] returns a list only when no argument names
    something that exists: then it is what [glob] returns for each argument,
    in order, one after the other; as soon as one argument names an existing
    file or directory it raises [TypeError]. *)
Theorem expand_files_cases {Page} (fs : filesystem Page)
    (glob : string -> list string) (path_glob : string -> string -> list string)
    (filenames : list string) :
  ((forall f, f ∈ filenames -> fs !! f = None) ->
   _expand_files fs glob path_glob filenames = inr (concat (glob <$> filenames)))
  /\ ((exists f, f ∈ filenames /\ is_Some (fs !! f)) ->
      _expand_files fs glob path_glob filenames = inl TypeError).
Proof.
  unfold _expand_files. split.
  - intros Hnone.
    rewrite expand_loop_patterns; [reflexivity|].
    apply Forall_forall. intros f Hf. apply isfile_isdir_None, Hnone, Hf.
  - intros (f & Hf & Hsome).
    apply (expand_loop_existing fs glob path_glob filenames [] f Hf).
    destruct (isfile fs f) eqn:E1; [left; reflexivity|].
    destruct (isdir fs f) eqn:E2; [right; reflexivity|].
    assert (fs !! f = None) as Hn by (apply isfile_isdir_None; auto).
    rewrite Hn in Hsome. destruct Hsome; discriminate.
Qed.

Lemma expand_files_cases_witness :
  _expand_files (folder "/home" ∅ : filesystem nat)
    (fun pattern => if String.eqb pattern "*.pdf"
                    then ["a.pdf"%string; "b.pdf"%string] else [])
    (fun _ _ => []) ["*.pdf"%string; "*.txt"%string; "*.pdf"%string]
  = inr ["a.pdf"%string; "b.pdf"%string; "a.pdf"%string; "b.pdf"%string].
Proof.
  apply (proj1 (expand_files_cases (folder "/home" ∅ : filesystem nat)
           (fun pattern => if String.eqb pattern "*.pdf"
                           then ["a.pdf"%string; "b.pdf"%string] else [])
           (fun _ _ => []) ["*.pdf"%string; "*.txt"%string; "*.pdf"%string])).
  intros f Hf.
  repeat (apply elem_of_cons in Hf as [->|Hf]; [reflexivity|]).
  inversion Hf.
Defined.

Lemma slice_from_nonneg {A} (l : list A) (k : Z) :
  0 <= k -> Py.slice_from k l = drop (Z.to_nat k) l.
Proof.
  intros Hk. unfold Py.slice_from, Py.clamp.
  destruct (Z.ltb_spec k 0); [lia|].
  destruct (Z.le_gt_cases k (Z.of_nat (length l))).
  - f_equal. lia.
  - rewrite !drop_ge by lia. reflexivity.
Qed.

Lemma slice_from_negative {A} (l : list A) (k : Z) :
  k < 0 -> Py.slice_from k l = drop (length l - Z.to_nat (- k)) l.
Proof.
  intros Hk. unfold Py.slice_from, Py.clamp.
  destruct (Z.ltb_spec k 0); [|lia]. f_equal. lia.
Qed.

(** X15. With [skip_front = k > 0], [merge] of PDF sources into an output
    path that can be created (it leads to a place where nothing is) puts
    there the sources one after the other in the order given, each without
    its first [k] pages, and changes nothing else. *)
Theorem merge_drops_front {Page} (fs : filesystem Page) (output : string)
    (filenames : list string) (docs : list (list Page)) (k : Z)
    (place : string) :
  sources fs filenames docs ->
  locate fs output = Some place ->
  files fs !! place = None ->
  0 < k ->
  merge output filenames (Some k) fs
  = (inr tt, store place (PdfFile (concat (drop (Z.to_nat k) <$> docs))) fs).
Proof.
  intros Hsrc Hp Hfree Hk.
  rewrite (merge_sources fs output (Some k) filenames docs place Hsrc Hp)
    by (rewrite Hfree; discriminate).
  do 4 f_equal. apply list_fmap_ext. intros i d _. unfold merge_pages.
  destruct (Z.eqb_spec k 0); [lia|]. simpl. apply slice_from_nonneg. lia.
Qed.

Lemma merge_drops_front_witness :
  let fs : filesystem nat :=
    folder "/home"
      {[ "/home/a.pdf"%string := PdfFile [1; 2; 3]%nat;
         "/home/b.pdf"%string := PdfFile [4; 5; 6; 7]%nat ]} in
  merge "out.pdf" ["b.pdf"%string; "a.pdf"%string; "b.pdf"%string] (Some 2) fs
  = (inr tt, store "/home/out.pdf" (PdfFile [6; 7; 3; 6; 7]%nat) fs).
Proof.
  intros fs.
  apply (merge_drops_front fs "out.pdf"
           ["b.pdf"%string; "a.pdf"%string; "b.pdf"%string]
           [[4; 5; 6; 7]%nat; [1; 2; 3]%nat; [4; 5; 6; 7]%nat] 2 "/home/out.pdf").
  - repeat constructor.
  - reflexivity.
  - reflexivity.
  - lia.
Defined.

(** X16. A negative [skip_front = -j] is not refused: [merge] then keeps
    only the last [j] pages of each source (all of a source that has fewer
    than [j] pages).  The sources are PDF files and the output path can be
    created. *)
Theorem merge_negative_skip {Page} (fs : filesystem Page) (output : string)
    (filenames : list string) (docs : list (list Page)) (k : Z)
    (place : string) :
  sources fs filenames docs ->
  locate fs output = Some place ->
  files fs !! place = None ->
  k < 0 ->
  merge output filenames (Some k) fs
  = (inr tt,
     store place
       (PdfFile (concat ((fun d => drop (length d - Z.to_nat (- k)) d)
                           <$> docs))) fs).
Proof.
  intros Hsrc Hp Hfree Hk.
  rewrite (merge_sources fs output (Some k) filenames docs place Hsrc Hp)
    by (rewrite Hfree; discriminate).
  do 4 f_equal. apply list_fmap_ext. intros i d _. unfold merge_pages.
  destruct (Z.eqb_spec k 0); [lia|]. simpl. apply slice_from_negative. lia.
Qed.

Lemma merge_negative_skip_witness :
  let fs : filesystem nat :=
    folder "/home"
      {[ "/home/a.pdf"%string := PdfFile [1; 2; 3]%nat;
         "/home/b.pdf"%string := PdfFile [4]%nat ]} in
  merge "out.pdf" ["a.pdf"%string; "b.pdf"%string] (Some (-2)) fs
  = (inr tt, store "/home/out.pdf" (PdfFile [2; 3; 4]%nat) fs).
Proof.
  intros fs.
  apply (merge_negative_skip fs "out.pdf" ["a.pdf"%string; "b.pdf"%string]
           [[1; 2; 3]%nat; [4]%nat] (-2) "/home/out.pdf").
  - repeat constructor.
  - reflexivity.
  - reflexivity.
  - lia.
Defined.

Lemma merge_loop_fs {Page} (filenames : list string) (skip_front : option Z) :
  forall (merged : list Page) (fs : filesystem Page),
  snd (merge_loop merged filenames skip_front fs) = fs.
Proof.
  induction filenames as [|f rest IH]; intros merged fs; [reflexivity|].
  cbn [merge_loop]. unfold io_bind.
  destruct (read_pdf_cases fs f) as [[e He]|(d & _ & Hd)].
  - rewrite He. reflexivity.
  - rewrite Hd. apply IH.
Qed.

(** The two ways a call of [merge] can end: with an exception and the file
    system as it was, or with a document put at the place the output path
    leads to. *)
Lemma merge_cases {Page} (fs : filesystem Page) (output : string)
    (filenames : list string) (skip_front : option Z) :
  (exists e, merge output filenames skip_front fs = (inl e, fs))
  \/ (exists merged place,
        locate fs output = Some place
        /\ merge output filenames skip_front fs
           = (inr tt, store place (PdfFile merged) fs)).
Proof.
  unfold merge, io_bind.
  pose proof (merge_loop_fs filenames skip_front [] fs) as Hfs.
  destruct (merge_loop [] filenames skip_front fs) as [[e|merged] fs1];
    simpl in Hfs; subst fs1.
  - left. eexists. reflexivity.
  - destruct (write_pdf_cases fs output merged) as [[e He]|(place & Hp & _ & Hw)].
    + left. exists e. exact He.
    + right. exists merged, place. auto.
Qed.

(** X17. [merge] touches no file but the output: every path that does not
    lead where the output path leads names after the call what it named
    before, and when the call raises (a source that is missing, a directory
    or not a PDF; an output path that cannot be opened) nothing at all has
    changed. *)
Theorem merge_touches_output_only {Page} (fs : filesystem Page)
    (output : string) (filenames : list string) (skip_front : option Z) :
  (forall p : string, ~ same_file fs p output ->
     snd (merge output filenames skip_front fs) !! p = fs !! p)
  /\ (forall e : exn, fst (merge output filenames skip_front fs) = inl e ->
        snd (merge output filenames skip_front fs) = fs).
Proof.
  destruct (merge_cases fs output filenames skip_front)
    as [[e He]|(merged & place & Hplace & Hrun)]; rewrite ?He, ?Hrun; split.
  - reflexivity.
  - reflexivity.
  - intros p Hp. simpl. apply lookup_store_other.
    intros Hsame. apply Hp. exists place. auto.
  - simpl. discriminate.
Qed.

Lemma merge_touches_output_only_witness :
  let fs : filesystem nat :=
    folder "/home" {[ "/home/a.pdf"%string := PdfFile [1; 2]%nat ]} in
  snd (merge "out.pdf" ["a.pdf"%string; "missing.pdf"%string] None fs) = fs.
Proof.
  intros fs.
  apply (proj2 (merge_touches_output_only fs "out.pdf"
                  ["a.pdf"%string; "missing.pdf"%string] None)
           FileNotFoundError).
  reflexivity.
Defined.

Section MergeMainRuns.

Context {Page : Type}.
Variable glob : string -> list string.
Variable path_glob : string -> string -> list string.
Variable format_list : list string -> string.
Implicit Types (fs : filesystem Page).

(** Past its three checks, the command line expands the arguments. *)
Lemma merge_main_unfold fs output input stripfront :
  output <> ""%string -> fs !! output = None -> input <> [] ->
  merge_main glob path_glob format_list output input stripfront fs
  = match _expand_files fs glob path_glob input with
    | inl e => Uncaught e fs
    | inr inputs =>
        if existsb (fun filename => negb (path_exists fs filename)) inputs
        then SystemExit (-1)
               (String.append "Input file "
                  (String.append (format_list input) " does not exist")) fs
        else match stripfront with
             | Some k =>
                 if negb (k =? 0)
                 then run (merge output inputs (Some k)) fs
                 else run (merge output inputs None) fs
             | None => run (merge output inputs None) fs
             end
    end.
Proof.
  intros Hname Hfree Hinput. unfold merge_main.
  apply String.eqb_neq in Hname. rewrite Hname, (path_exists_false _ _ Hfree).
  destruct input; [contradiction | reflexivity].
Qed.

(** Whatever the arguments, the file system a run leaves is the one it
    found, or the one it found with a document added where the output path
    leads, which named nothing. *)
Lemma merge_main_cases fs output input stripfront :
  outcome_fs (merge_main glob path_glob format_list output input stripfront fs) = fs
  \/ (fs !! output = None
      /\ exists merged place,
           locate fs output = Some place
           /\ outcome_fs (merge_main glob path_glob format_list output input
                            stripfront fs)
              = store place (PdfFile merged) fs).
Proof.
  unfold merge_main.
  destruct (String.eqb output ""); [left; reflexivity|].
  destruct (path_exists fs output) eqn:Eexists; [left; reflexivity|].
  pose proof (path_exists_false_inv _ _ Eexists) as Eout.
  destruct input as [|f input']; [left; reflexivity|].
  destruct (_expand_files fs glob path_glob (f :: input')) as [e|inputs];
    [left; reflexivity|].
  destruct (existsb _ inputs); [left; reflexivity|].
  assert (Hrun : forall skip,
            outcome_fs (run (merge output inputs skip) fs) = fs
            \/ exists merged place,
                 locate fs output = Some place
                 /\ outcome_fs (run (merge output inputs skip) fs)
                    = store place (PdfFile merged) fs).
  { intros skip. unfold run.
    destruct (merge_cases fs output inputs skip)
      as [[e He]|(merged & place & Hp & Hm)].
    - rewrite He. left. reflexivity.
    - rewrite Hm. right. exists merged, place. split; [exact Hp | reflexivity]. }
  destruct stripfront as [k|]; [destruct (negb (k =? 0))|].
  - destruct (Hrun (Some k)) as [H|H]; [left | right; split; [exact Eout|]]; exact H.
  - destruct (Hrun None) as [H|H]; [left | right; split; [exact Eout|]]; exact H.
  - destruct (Hrun None) as [H|H]; [left | right; split; [exact Eout|]]; exact H.
Qed.

End MergeMainRuns.

(** The command line of merge.py exits with status -1 and changes no
    file when the output name is empty, when the output path exists, and
    when no input is given. *)
Lemma merge_main_rejects {Page} (glob : string -> list string)
    (path_glob : string -> string -> list string)
    (format_list : list string -> string)
    (fs : filesystem Page) (output : string) (input : list string)
    (stripfront : option Z) :
  (output = ""%string ->
   merge_main glob path_glob format_list output input stripfront fs
   = SystemExit (-1) "Need to specify output file name" fs)
  /\ (output <> ""%string -> is_Some (fs !! output) ->
      merge_main glob path_glob format_list output input stripfront fs
      = SystemExit (-1)
          (String.append "Output file " (String.append output " already exists")) fs)
  /\ (output <> ""%string -> fs !! output = None -> input = [] ->
      merge_main glob path_glob format_list output input stripfront fs
      = SystemExit (-1) "Input list of files is empty" fs).
Proof.
  unfold merge_main. split; [|split].
  - intros ->. reflexivity.
  - intros Hname Hx. apply String.eqb_neq in Hname.
    rewrite Hname, (path_exists_true _ _ Hx). reflexivity.
  - intros Hname Hfree ->. apply String.eqb_neq in Hname.
    rewrite Hname, (path_exists_false _ _ Hfree). reflexivity.
Qed.

(** An input that names something that exists stops the run in
    [_expand_files]. *)
Lemma merge_main_existing_input_aux {Page} (glob : string -> list string)
    (path_glob : string -> string -> list string)
    (format_list : list string -> string)
    (fs : filesystem Page) (output : string) (input : list string)
    (stripfront : option Z) (f : string) :
  output <> ""%string ->
  fs !! output = None ->
  f ∈ input ->
  is_Some (fs !! f) ->
  merge_main glob path_glob format_list output input stripfront fs
  = Uncaught TypeError fs.
Proof.
  intros Hname Hfree Hf Hsome.
  rewrite merge_main_unfold; [|exact Hname|exact Hfree|].
  - unfold _expand_files.
    rewrite (expand_loop_existing fs glob path_glob input [] f Hf); [reflexivity|].
    destruct (isfile fs f) eqn:E1; [left; reflexivity|].
    destruct (isdir fs f) eqn:E2; [right; reflexivity|].
    assert (fs !! f = None) as Hn by (apply isfile_isdir_None; auto).
    rewrite Hn in Hsome. destruct Hsome; discriminate.
  - intros ->. inversion Hf.
Qed.

(** X18. A run of merge.py with a free output path and an input argument
    that names an existing file or directory dies of [TypeError] and writes
    nothing, whatever the other arguments are. *)
Theorem merge_main_existing_input {Page} (glob : string -> list string)
    (path_glob : string -> string -> list string)
    (format_list : list string -> string)
    (fs : filesystem Page) (output : string) (input : list string)
    (stripfront : option Z) (f : string) :
  output <> ""%string ->
  fs !! output = None ->
  f ∈ input ->
  is_Some (fs !! f) ->
  merge_main glob path_glob format_list output input stripfront fs
  = Uncaught TypeError fs.
Proof. apply merge_main_existing_input_aux. Qed.

Lemma merge_main_existing_input_witness :
  let fs : filesystem nat :=
    folder "/home"
      {[ "/home/a.pdf"%string := PdfFile [1; 2]%nat;
         "/home/b.pdf"%string := PdfFile [3]%nat ]} in
  merge_main (fun p => [p]) (fun _ _ => []) (fun _ => ""%string)
    "out.pdf" ["a.pdf"%string; "b.pdf"%string] None fs
  = Uncaught TypeError fs.
Proof.
  intros fs.
  apply (merge_main_existing_input (fun p => [p]) (fun _ _ => [])
           (fun _ => ""%string) fs "out.pdf" ["a.pdf"%string; "b.pdf"%string]
           None "a.pdf"%string).
  - discriminate.
  - reflexivity.
  - left.
  - vm_compute. eexists. reflexivity.
Defined.

(** A run of merge.py with an output path that can be created and arguments
    that are all patterns (none names an existing path itself), every match
    of which is a PDF, completes and puts where the output path leads the
    matched documents in order, each cut as [-stripfront] asks. *)
Lemma merge_main_writes {Page} (glob : string -> list string)
    (path_glob : string -> string -> list string)
    (format_list : list string -> string)
    (fs : filesystem Page) (output : string) (input : list string)
    (stripfront : option Z) (docs : list (list Page)) (place : string) :
  output <> ""%string ->
  locate fs output = Some place ->
  files fs !! place = None ->
  input <> [] ->
  (forall f, f ∈ input -> fs !! f = None) ->
  sources fs (concat (glob <$> input)) docs ->
  merge_main glob path_glob format_list output input stripfront fs
  = Completed (store place (PdfFile (concat (merge_pages stripfront <$> docs))) fs).
Proof.
  intros Hname Hp Hfree Hinput Hnone Hsrc.
  assert (Hout : fs !! output = None).
  { rewrite (lookup_located _ _ _ Hp). exact Hfree. }
  rewrite merge_main_unfold by assumption.
  unfold _expand_files.
  rewrite expand_loop_patterns
    by (apply Forall_forall; intros f Hf; apply isfile_isdir_None, Hnone, Hf).
  cbn [app].
  set (inputs := concat (glob <$> input)) in *.
  assert (Hexist : existsb (fun filename => negb (path_exists fs filename)) inputs
                   = false).
  { clear -Hsrc. induction Hsrc as [|f d fl dl Hf _ IH]; [reflexivity|].
    simpl. rewrite path_exists_true by (rewrite Hf; eexists; reflexivity).
    exact IH. }
  rewrite Hexist.
  assert (Hrun : forall skip,
            run (merge output inputs skip) fs
            = Completed (store place
                           (PdfFile (concat (merge_pages skip <$> docs))) fs)).
  { intros skip. unfold run.
    rewrite (merge_sources fs output skip inputs docs place Hsrc Hp)
      by (rewrite Hfree; discriminate).
    reflexivity. }
  destruct stripfront as [k|]; [|apply Hrun].
  destruct (Z.eqb_spec k 0) as [->|Hk]; cbn [negb]; [|apply Hrun].
  rewrite Hrun. reflexivity.
Qed.

(** X20. No run of merge.py changes or removes a file that exists: whatever
    the arguments and however the run ends, every path that named something
    before names the same thing after. *)
Theorem merge_main_keeps_existing {Page} (glob : string -> list string)
    (path_glob : string -> string -> list string)
    (format_list : list string -> string)
    (fs : filesystem Page) (output : string) (input : list string)
    (stripfront : option Z) (p : string) :
  is_Some (fs !! p) ->
  outcome_fs (merge_main glob path_glob format_list output input stripfront fs) !! p
  = fs !! p.
Proof.
  intros Hp.
  destruct (merge_main_cases glob path_glob format_list fs output input stripfront)
    as [->|(Hfree & merged & place & Hplace & ->)]; [reflexivity|].
  apply lookup_store_other. intros Hsame.
  rewrite (lookup_located _ _ _ Hsame) in Hp.
  rewrite (lookup_located _ _ _ Hplace) in Hfree.
  rewrite Hfree in Hp. destruct Hp; discriminate.
Qed.

Lemma merge_main_keeps_existing_witness :
  let fs : filesystem nat :=
    folder "/home" {[ "/home/a.pdf"%string := PdfFile [1; 2; 3]%nat ]} in
  outcome_fs (merge_main (fun _ => ["a.pdf"%string]) (fun _ _ => [])
                (fun _ => ""%string) "out.pdf" ["*.pdf"%string] None fs)
    !! "a.pdf"%string
  = fs !! "a.pdf"%string.
Proof.
  intros fs.
  apply (merge_main_keeps_existing (fun _ => ["a.pdf"%string]) (fun _ _ => [])
           (fun _ => ""%string) fs "out.pdf" ["*.pdf"%string] None "a.pdf"%string).
  vm_compute. eexists. reflexivity.
Defined.

(** The loop of [merge] gets through only when every name is a PDF. *)
Lemma merge_loop_sources_inv {Page} (fs : filesystem Page)
    (skip_front : option Z) (filenames : list string) :
  forall (merged out : list Page) (fs1 : filesystem Page),
  merge_loop merged filenames skip_front fs = (inr out, fs1) ->
  exists docs, sources fs filenames docs.
Proof.
  induction filenames as [|f rest IH]; intros merged out fs1 Hrun.
  - exists []. constructor.
  - cbn [merge_loop] in Hrun. unfold io_bind in Hrun.
    destruct (read_pdf_cases fs f) as [[e He]|(d & Hf & Hd)].
    + rewrite He in Hrun. discriminate.
    + rewrite Hd in Hrun.
      destruct (IH _ _ _ Hrun) as (docs & Hdocs).
      exists (d :: docs). constructor; assumption.
Qed.

(** A run of [merge] that completes had PDF sources and an output path
    leading somewhere. *)
Lemma run_merge_completed {Page} (fs fs' : filesystem Page) (output : string)
    (inputs : list string) (skip_front : option Z) :
  run (merge output inputs skip_front) fs = Completed fs' ->
  (exists docs, sources fs inputs docs)
  /\ exists place, locate fs output = Some place.
Proof.
  unfold run. intros Hrun. split.
  - unfold merge, io_bind in Hrun.
    destruct (merge_loop [] inputs skip_front fs) as [[e|merged] fs1] eqn:Eloop;
      [discriminate|].
    eapply merge_loop_sources_inv, Eloop.
  - destruct (merge_cases fs output inputs skip_front)
      as [[e He]|(merged & place & Hp & _)].
    + rewrite He in Hrun. discriminate.
    + exists place. exact Hp.
Qed.

(** X19. A run of merge.py completes exactly when the output name is not
    empty and its path can be created (it leads to a place where nothing
    is), at least one input is given, no input names an existing path
    itself, and every path the inputs match as patterns is a PDF; the
    matched documents are then put where the output path leads, in order,
    each cut as [-stripfront] asks.  So a file given by its own name is
    never merged. *)
Theorem merge_main_completes_iff {Page} (glob : string -> list string)
    (path_glob : string -> string -> list string)
    (format_list : list string -> string)
    (fs fs' : filesystem Page) (output : string) (input : list string)
    (stripfront : option Z) :
  merge_main glob path_glob format_list output input stripfront fs = Completed fs'
  <-> (output <> ""%string
       /\ input <> []
       /\ (forall f, f ∈ input -> fs !! f = None)
       /\ exists (place : string) (docs : list (list Page)),
            locate fs output = Some place
            /\ files fs !! place = None
            /\ sources fs (concat (glob <$> input)) docs
            /\ fs' = store place
                       (PdfFile (concat (merge_pages stripfront <$> docs))) fs).
Proof.
  split.
  - intros Hmain.
    assert (Hname : output <> ""%string).
    { intros ->. unfold merge_main in Hmain. simpl in Hmain. discriminate. }
    assert (Hfree : fs !! output = None).
    { destruct (fs !! output) as [nd|] eqn:Eout; [|reflexivity].
      unfold merge_main in Hmain.
      apply String.eqb_neq in Hname.
      rewrite Hname, path_exists_true in Hmain
        by (rewrite Eout; eexists; reflexivity).
      discriminate. }
    assert (Hinput : input <> []).
    { intros ->. unfold merge_main in Hmain.
      apply String.eqb_neq in Hname.
      rewrite Hname, (path_exists_false _ _ Hfree) in Hmain. discriminate. }
    assert (Hnone : forall f, f ∈ input -> fs !! f = None).
    { intros f Hf. destruct (fs !! f) as [nd|] eqn:Ef; [|reflexivity].
      rewrite (merge_main_existing_input_aux glob path_glob format_list
                 fs output input stripfront f Hname Hfree Hf) in Hmain;
        [discriminate | rewrite Ef; eexists; reflexivity]. }
    repeat (split; [assumption|]).
    pose proof Hmain as Hmain'.
    rewrite merge_main_unfold in Hmain by assumption.
    unfold _expand_files in Hmain.
    rewrite expand_loop_patterns in Hmain
      by (apply Forall_forall; intros f Hf; apply isfile_isdir_None, Hnone, Hf).
    cbn [app] in Hmain.
    destruct (existsb _ _); [discriminate|].
    assert (Hdocs : (exists docs, sources fs (concat (glob <$> input)) docs)
                    /\ exists place, locate fs output = Some place).
    { destruct stripfront as [k|]; [destruct (negb (k =? 0))|];
        eapply run_merge_completed; exact Hmain. }
    destruct Hdocs as ((docs & Hdocs) & (place & Hplace)).
    exists place, docs. split; [exact Hplace|].
    assert (Hnothing : files fs !! place = None).
    { rewrite <- (lookup_located _ _ _ Hplace). exact Hfree. }
    split; [exact Hnothing|]. split; [exact Hdocs|].
    pose proof (merge_main_writes glob path_glob format_list fs output input
                  stripfront docs place Hname Hplace Hnothing Hinput Hnone Hdocs)
      as Hw.
    congruence.
  - intros (Hname & Hinput & Hnone & place & docs & Hplace & Hnothing & Hdocs & ->).
    apply merge_main_writes; assumption.
Qed.

Lemma merge_main_completes_iff_witness :
  let fs : filesystem nat :=
    folder "/home"
      {[ "/home/a.pdf"%string := PdfFile [1; 2; 3]%nat;
         "/home/b.pdf"%string := PdfFile [4; 5]%nat ]} in
  merge_main (fun _ => ["a.pdf"%string; "b.pdf"%string]) (fun _ _ => [])
    (fun _ => ""%string) "out.pdf" ["*.pdf"%string] (Some 1) fs
  = Completed (store "/home/out.pdf" (PdfFile [2; 3; 5]%nat) fs).
Proof.
  intros fs.
  apply (proj2 (merge_main_completes_iff
                  (fun _ => ["a.pdf"%string; "b.pdf"%string])
                  (fun _ _ => []) (fun _ => ""%string) fs
                  (store "/home/out.pdf" (PdfFile [2; 3; 5]%nat) fs)
                  "out.pdf" ["*.pdf"%string] (Some 1))).
  split; [discriminate|]. split; [discriminate|].
  split.
  - intros f Hf. apply list_elem_of_singleton in Hf. subst f. reflexivity.
  - exists "/home/out.pdf"%string, [[1; 2; 3]%nat; [4; 5]%nat].
    split; [reflexivity|]. split; [reflexivity|].
    split; [repeat constructor | reflexivity].
Defined.

(** ** Runs that stop at the output *)

(** The last row of [short_records] has no [end] field: [int(None)] is a
    [TypeError]. *)
Lemma parse_short_records :
  let fs : filesystem nat :=
    folder "/d" {[ "/d/chapters.csv"%string := CsvFile short_records ]} in
  _parse_splits_file "chapters.csv" fs = (inl TypeError, fs).
Proof.
  intros fs.
  rewrite (parse_splits_file_run fs "chapters.csv" short_records eq_refl).
  reflexivity.
Qed.

(** A chapter named into a directory that does not exist, a chapter with
    an empty name, and a chapter whose row had no name are not written:
    [split] raises, and the chapters before it stay written. *)
Lemma split_unwritable_chapters :
  let fs : filesystem nat :=
    folder "/d" {[ "/d/book.pdf"%string := PdfFile [1; 2; 3]%nat ]} in
  split "book.pdf" [mkChapter (Some "nodir/a"%string) 1 1] "/d" fs
  = (inl FileNotFoundError, fs)
  /\ split "book.pdf" [mkChapter (Some ""%string) 1 1] "/d" fs
     = (inl IsADirectoryError, fs)
  /\ split "book.pdf" [mkChapter (Some "a"%string) 1 1; mkChapter None 2 2] "/d" fs
     = (inl TypeError, store "/d/a" (PdfFile [1]%nat) fs).
Proof. intros fs. split; [|split]; reflexivity. Qed.

(** An output in a directory that does not exist, or with an empty name,
    stops [reorder] and [merge] at the point where they open it; nothing
    is written. *)
Lemma unwritable_output :
  let fs : filesystem nat :=
    folder "/home" {[ "/home/in.pdf"%string := PdfFile [1; 2]%nat ]} in
  reorder_main "in.pdf" "nodir/out.pdf" fs = Uncaught FileNotFoundError fs
  /\ reorder_main "in.pdf" "" fs = Uncaught FileNotFoundError fs
  /\ merge "nodir/out.pdf" ["in.pdf"%string] None fs = (inl FileNotFoundError, fs).
Proof. intros fs. split; [|split]; reflexivity. Qed.
